(** * audio-recorder: speech segmentation and dual-path persistence

    A shallow embedding of [config.py] and of the [AudioRecorder] class of
    [main.py], followed by the properties of the segmentation loop, of the
    trailing-silence trim and of the primary/fallback write policy.

    Python objects are modelled as follows.
    - [bytes] values (audio frames, PCM payloads) are [list byte].
    - Python integers are [Z]; the two float-valued settings are rationals
      ([Q]) and [int(...)] truncates towards zero.
    - The recorder object, the file system and the sequence of calls and
      console messages form one explicit state ([Sys]); methods are
      computations in a state-and-exception monad over it.
    - The microphone stream is the list of results of the successive
      [stream.read] calls. *)

From Stdlib Require Import ZArith QArith List String Ascii Strings.Byte Bool Lia.
From stdpp Require Import base gmap strings list.
Import ListNotations.

Local Open Scope string_scope.
Local Open Scope Z_scope.

(** ** Small string library: the parts of [str] and [os.path] the code uses *)

Module PyStr.

(** [str.lower] on ASCII letters. *)
Definition lower_ascii (c : ascii) : ascii :=
  let n := nat_of_ascii c in
  if (Nat.leb 65 n && Nat.leb n 90)%bool then ascii_of_nat (n + 32) else c.

Fixpoint lower (s : string) : string :=
  match s with
  | EmptyString => EmptyString
  | String c r => String (lower_ascii c) (lower r)
  end.

Definition is_slash (c : ascii) : bool := Ascii.eqb c "/"%char.

Fixpoint drop_leading_slashes (l : list ascii) : list ascii :=
  match l with
  | c :: r => if is_slash c then drop_leading_slashes r else l
  | [] => []
  end.

(** [s.rstrip('/')] *)
Definition rstrip_slash (s : string) : string :=
  string_of_list_ascii
    (rev (drop_leading_slashes (rev (list_ascii_of_string s)))).

Definition all_slashes (s : string) : bool :=
  forallb is_slash (list_ascii_of_string s).

Definition startswith_slash (s : string) : bool :=
  match s with String c _ => is_slash c | EmptyString => false end.

Definition endswith_slash (s : string) : bool :=
  match rev (list_ascii_of_string s) with
  | c :: _ => is_slash c
  | [] => false
  end.

(** [posixpath.join(a, b)]: an absolute [b] replaces [a]; otherwise the
    two are glued with exactly one separator, none after an empty [a] or
    an [a] that already ends with one. *)
Definition path_join (a b : string) : string :=
  if startswith_slash b then b
  else if (String.eqb a "" || endswith_slash a)%bool then a ++ b
  else a ++ "/" ++ b.

(** Everything after the last slash is removed; [None] without a slash. *)
Fixpoint upto_last_slash (l : list ascii) : option (list ascii) :=
  match l with
  | [] => None
  | c :: r =>
      match upto_last_slash r with
      | Some h => Some (c :: h)
      | None => if is_slash c then Some [c] else None
      end
  end.

(** The name under which a directory is recorded in the file system:
    trailing separators are dropped, except from a path made of
    separators only (the root). *)
Definition dir_key (p : string) : string :=
  if all_slashes p then p else rstrip_slash p.

(** [posixpath.dirname] *)
Definition dirname (p : string) : string :=
  match upto_last_slash (list_ascii_of_string p) with
  | Some h => dir_key (string_of_list_ascii h)
  | None => ""
  end.

End PyStr.

(** ** config.py *)

Record Config := mkConfig {
  OUTPUT_FORMAT : string;
  NETWORK_PATH : string;
  BACKUP_PATH : string;
  SAMPLE_RATE : Z;
  FRAME_DURATION : Z;                      (* milliseconds *)
  SILENCE_DURATION_BEFORE_SAVE : Q;        (* seconds *)
  TRAILING_SILENCE_TO_KEEP : Q;            (* seconds *)
  VAD_SENSITIVITY : Z;
  MINIMUM_CONSECUTIVE_SPEECH_FRAMES : Z
}.

(** The values in the repository's [config.py]. *)
Definition config : Config := {|
  OUTPUT_FORMAT := "flac";
  NETWORK_PATH := "/mnt/smbhome/audio_in/";
  BACKUP_PATH := "./backup_audio/";
  SAMPLE_RATE := 16000;
  FRAME_DURATION := 30;
  SILENCE_DURATION_BEFORE_SAVE := 3 # 1;
  TRAILING_SILENCE_TO_KEEP := 1 # 10;
  VAD_SENSITIVITY := 3;
  MINIMUM_CONSECUTIVE_SPEECH_FRAMES := 7
|}.

(** The same settings with the other supported container. *)
Definition config_wav : Config := {|
  OUTPUT_FORMAT := "wav";
  NETWORK_PATH := NETWORK_PATH config;
  BACKUP_PATH := BACKUP_PATH config;
  SAMPLE_RATE := SAMPLE_RATE config;
  FRAME_DURATION := FRAME_DURATION config;
  SILENCE_DURATION_BEFORE_SAVE := SILENCE_DURATION_BEFORE_SAVE config;
  TRAILING_SILENCE_TO_KEEP := TRAILING_SILENCE_TO_KEEP config;
  VAD_SENSITIVITY := VAD_SENSITIVITY config;
  MINIMUM_CONSECUTIVE_SPEECH_FRAMES := MINIMUM_CONSECUTIVE_SPEECH_FRAMES config
|}.

(** [int(q)] for a float [q]: truncation towards zero. *)
Definition py_int (q : Q) : Z := Z.quot (Qnum q) (Zpos (Qden q)).

(** ** Exceptions *)

Inductive Exn :=
| FileNotFoundError
| FileExistsError
| PermissionError
| IsADirectoryError
| NotADirectoryError
| ValueError
| ZeroDivisionError
| OSError                   (* an [OSError] that is none of its subclasses *)
| RuntimeError              (* [soundfile]'s error for a failed open is one *)
| PlainException            (* [Exception("...")] raised by the code itself *)
| KeyboardInterrupt.

(** [KeyboardInterrupt] derives from [BaseException] only, so that
    [except Exception] lets it through. *)
Definition is_Exception (e : Exn) : bool :=
  match e with KeyboardInterrupt => false | _ => true end.

(** [int((seconds * 1000) / frame_duration)], the conversion of a duration
    into a number of frames used twice in [__init__]; the division raises
    for a frame duration of [0]. *)
Definition frames_of_seconds (seconds : Q) (frame_duration : Z) : Exn + Z :=
  if frame_duration =? 0 then inl ZeroDivisionError
  else inr (py_int (Qdiv (Qmult seconds (inject_Z 1000))
                         (inject_Z frame_duration))).

(** ** File system *)

Inductive Container := WAV | FLAC.

(** What an audio file holds: its container and stream parameters and the
    PCM payload. *)
Record AudioFile := mkAudioFile {
  af_container : Container;
  af_channels : Z;
  af_sampwidth : Z;
  af_samplerate : Z;
  af_pcm : list byte
}.

(** Directories (by [PyStr.dir_key]), regular files (by path) and the
    directories in which creating or replacing a file is refused. *)
Record FS := mkFS {
  dirs : gset string;
  files : gmap string AudioFile;
  denied : gset string
}.

(** [os.path.exists]: the empty path does not exist, although the
    working directory, to which it would refer as a directory name, does. *)
Definition path_exists (p : string) (fs : FS) : bool :=
  (negb (String.eqb p "")
   && (bool_decide (PyStr.dir_key p ∈ dirs fs)
       || bool_decide (is_Some (files fs !! p))))%bool.

(** Opening mode of a file created for writing: ['wb'] truncates an
    existing file, ['x'] refuses to open one. *)
Inductive OpenMode := Mode_wb | Mode_x.

(** Why the operating system refuses to create or replace the file at
    [path], when it does. *)
Definition os_refusal (path : string) (fs : FS) : option Exn :=
  if bool_decide (PyStr.dir_key path ∈ dirs fs) then Some IsADirectoryError
  else if negb (bool_decide (PyStr.dirname path ∈ dirs fs))
       then Some FileNotFoundError
  else if bool_decide (PyStr.dirname path ∈ denied fs)
       then Some PermissionError
  else None.

(** The check made when a file is opened for writing.  [wave.open] in
    mode ['wb'] is the built-in [open] and raises what the operating
    system reports.  [sf.SoundFile] in mode ['x'] first looks for a
    regular file at the path and raises a plain [OSError] when there is
    one; otherwise it hands the path to its library, and reports a
    failure of that as a [RuntimeError]. *)
Definition open_check (mode : OpenMode) (path : string) (fs : FS)
  : option Exn :=
  match mode with
  | Mode_wb => os_refusal path fs
  | Mode_x =>
      if bool_decide (is_Some (files fs !! path)) then Some OSError
      else match os_refusal path fs with
           | Some _ => Some RuntimeError
           | None => None
           end
  end.

Definition store_file (path : string) (f : AudioFile) (fs : FS) : FS :=
  {| dirs := dirs fs; files := <[path := f]> (files fs); denied := denied fs |}.

(** ** The recorder object *)

(** One frame as returned by [stream.read]: a [bytes] object. *)
Definition Frame := list byte.

(** The attributes of an [AudioRecorder] instance.  The last two are
    created by [record] rather than by [__init__]. *)
Record AudioRecorder := mkRecorder {
  sample_rate : Z;
  frame_duration : Z;
  frame_size : Z;
  recording : bool;
  buffer : list Frame;
  silence_threshold : Z;
  silence_counter : Z;
  trailing_silence_frames : Z;
  network_path : string;
  backup_path : string;
  speech_detected_in_recording : bool;
  speech_frame_counter : Z;
  speech_pre_buffer : list Frame
}.

Definition set_recording (v : bool) (s : AudioRecorder) : AudioRecorder :=
  mkRecorder (sample_rate s) (frame_duration s) (frame_size s) v (buffer s)
    (silence_threshold s) (silence_counter s) (trailing_silence_frames s)
    (network_path s) (backup_path s) (speech_detected_in_recording s)
    (speech_frame_counter s) (speech_pre_buffer s).

Definition set_buffer (v : list Frame) (s : AudioRecorder) : AudioRecorder :=
  mkRecorder (sample_rate s) (frame_duration s) (frame_size s) (recording s) v
    (silence_threshold s) (silence_counter s) (trailing_silence_frames s)
    (network_path s) (backup_path s) (speech_detected_in_recording s)
    (speech_frame_counter s) (speech_pre_buffer s).

Definition set_silence_counter (v : Z) (s : AudioRecorder) : AudioRecorder :=
  mkRecorder (sample_rate s) (frame_duration s) (frame_size s) (recording s)
    (buffer s) (silence_threshold s) v (trailing_silence_frames s)
    (network_path s) (backup_path s) (speech_detected_in_recording s)
    (speech_frame_counter s) (speech_pre_buffer s).

Definition set_speech_detected_in_recording (v : bool) (s : AudioRecorder)
  : AudioRecorder :=
  mkRecorder (sample_rate s) (frame_duration s) (frame_size s) (recording s)
    (buffer s) (silence_threshold s) (silence_counter s)
    (trailing_silence_frames s) (network_path s) (backup_path s) v
    (speech_frame_counter s) (speech_pre_buffer s).

Definition set_speech_frame_counter (v : Z) (s : AudioRecorder)
  : AudioRecorder :=
  mkRecorder (sample_rate s) (frame_duration s) (frame_size s) (recording s)
    (buffer s) (silence_threshold s) (silence_counter s)
    (trailing_silence_frames s) (network_path s) (backup_path s)
    (speech_detected_in_recording s) v (speech_pre_buffer s).

Definition set_speech_pre_buffer (v : list Frame) (s : AudioRecorder)
  : AudioRecorder :=
  mkRecorder (sample_rate s) (frame_duration s) (frame_size s) (recording s)
    (buffer s) (silence_threshold s) (silence_counter s)
    (trailing_silence_frames s) (network_path s) (backup_path s)
    (speech_detected_in_recording s) (speech_frame_counter s) v.

(** ** Calls and console output *)

(** The texts printed by the recorder. *)
Inductive Message :=
| Listening                          (* "Listening for speech... Press Ctrl+C to stop." *)
| Speech_confirmed                   (* "Speech confirmed, recording started" *)
| Stopped_by_user                    (* "Recording stopped by user" *)
| Saved_network (path : string)      (* "Saved recording to network drive: ..." *)
| Saved_backup (path : string)       (* "Saved recording to backup location: ..." *)
| Failed_to_save (e : Exn).          (* "Failed to save recording: ..." *)

(** What a run leaves behind besides files: the messages printed and the
    calls made on the recorder and on the audio library, oldest first.
    [Call_save_recording] records the segment buffer and the silence
    counter with which [save_recording] is entered. *)
Inductive Event :=
| Print (m : Message)
| Call_save_recording (segment : list Frame) (silence : Z)
| Call_write_audio_file (filepath : string)
| Audio_open (device_index : nat)
| Stream_stop
| Stream_close
| Audio_terminate.

(** ** State and exceptions *)

Record Sys := mkSys {
  self : AudioRecorder;
  fs : FS;
  clock : string;          (* what [datetime.now().strftime(...)] returns *)
  trace : list Event
}.

(** The outcome of a computation: a value, an exception, or [Blocked] when
    it is still waiting in [stream.read] after the supplied reads are used
    up. *)
Inductive Res (A : Type) :=
| Ret (a : A)
| Raise (e : Exn)
| Blocked.
Arguments Ret {A} a.
Arguments Raise {A} e.
Arguments Blocked {A}.

Definition M (A : Type) : Type := Sys -> Res A * Sys.

Definition ret {A} (a : A) : M A := fun w => (Ret a, w).

Definition bind {A B} (m : M A) (k : A -> M B) : M B :=
  fun w =>
    match m w with
    | (Ret a, w') => k a w'
    | (Raise e, w') => (Raise e, w')
    | (Blocked, w') => (Blocked, w')
    end.

Definition raise {A} (e : Exn) : M A := fun w => (Raise e, w).

Definition blocked {A} : M A := fun w => (Blocked, w).

(** The computations form a monad in stdpp's sense, which provides the
    notations [x ← m; k] and [m ;; k]. *)
#[global] Instance M_ret : MRet M := @ret.
#[global] Instance M_bind : MBind M := fun A B k m => bind m k.

Definition get_self : M AudioRecorder := fun w => (Ret (self w), w).

(** An assignment to attributes of [self]. *)
Definition upd (f : AudioRecorder -> AudioRecorder) : M unit :=
  fun w => (Ret tt, mkSys (f (self w)) (fs w) (clock w) (trace w)).

Definition get_fs : M FS := fun w => (Ret (fs w), w).

Definition put_fs (f : FS) : M unit :=
  fun w => (Ret tt, mkSys (self w) f (clock w) (trace w)).

Definition datetime_now : M string := fun w => (Ret (clock w), w).

Definition set_clock (t : string) : M unit :=
  fun w => (Ret tt, mkSys (self w) (fs w) t (trace w)).

Definition emit (ev : Event) : M unit :=
  fun w => (Ret tt, mkSys (self w) (fs w) (clock w) (trace w ++ [ev])).

(** [try: body  except Exception as e: handler e] *)
Definition try_except_Exception {A} (body : M A) (handler : Exn -> M A)
  : M A :=
  fun w =>
    match body w with
    | (Raise e, w') => if is_Exception e then handler e w' else (Raise e, w')
    | r => r
    end.

(** [try: body  except KeyboardInterrupt: handler] *)
Definition try_except_KeyboardInterrupt {A} (body : M A) (handler : M A)
  : M A :=
  fun w =>
    match body w with
    | (Raise KeyboardInterrupt, w') => handler w'
    | r => r
    end.

(** [try: body  finally: cleanup].  The cleanup runs when control leaves
    the body, with a value or with an exception; an exception of the body
    is raised again after it. *)
Definition try_finally {A} (body : M A) (cleanup : M unit) : M A :=
  fun w =>
    match body w with
    | (Ret a, w') => (cleanup ;; ret a) w'
    | (Raise e, w') => (cleanup ;; raise e) w'
    | (Blocked, w') => (Blocked, w')
    end.

(** ** Python helpers *)

(** [len(l)] *)
Definition len {A} (l : list A) : Z := Z.of_nat (length l).

(** [l[:-k]] for an integer [k >= 0]: all but the last [k] elements, and
    nothing at all when [k] is [0] or exceeds the length. *)
Definition slice_to_minus {A} (k : Z) (l : list A) : list A :=
  if k =? 0 then [] else firstn (Z.to_nat (len l - k)) l.

(** [b''.join(frames)] *)
Definition bytes_join (frames : list Frame) : list byte := concat frames.

(** [np.frombuffer(data, dtype=np.int16)]: the buffer is viewed as 16-bit
    samples, which needs an even number of bytes.  The array is kept as
    the bytes it views, which is also what [tobytes] gives back. *)
Definition np_frombuffer_int16 (data : list byte) : M (list byte) :=
  if Nat.even (length data) then mret data else raise ValueError.

(** Case-sensitive test that [needle] occurs in [hay]: the [in] operator
    on strings. *)
Fixpoint str_contains (needle hay : string) : bool :=
  (String.prefix needle hay
   || match hay with
      | EmptyString => false
      | String _ rest => str_contains needle rest
      end)%bool.

(** ** AudioRecorder.__init__ *)

(** The directories [os.makedirs] has to create for [p]: the directory
    itself and its ancestors, found by repeated [dirname]. *)
Fixpoint makedirs_chain (fuel : nat) (p : string) : list string :=
  match fuel with
  | O => []
  | S n => p :: (if String.eqb (PyStr.dirname p) p then []
                 else makedirs_chain n (PyStr.dirname p))
  end.

(** [os.makedirs(p)] for a path that does not exist: the directories of
    the chain that are missing are created.  It is refused for the empty
    path, when a regular file stands where a directory is needed, and
    when a missing directory would have to be created in one that does
    not accept new entries. *)
Definition os_makedirs (p : string) (f : FS) : Exn + FS :=
  let chain := makedirs_chain (S (String.length p)) (PyStr.dir_key p) in
  let is_file := fun d => bool_decide (is_Some (files f !! d)) in
  let missing := List.filter (fun d => negb (bool_decide (d ∈ dirs f))) chain in
  if String.eqb p "" then inl FileNotFoundError
  else if is_file (PyStr.dir_key p) then inl FileExistsError
  else if existsb is_file chain then inl NotADirectoryError
  else if existsb (fun d => bool_decide (PyStr.dirname d ∈ denied f)) missing
  then inl PermissionError
  else inr {| dirs := list_to_set chain ∪ dirs f;
              files := files f; denied := denied f |}.

(** The constructor, in the order of its statements: the frame size, the
    classifier, whose constructor raises [ValueError] for a sensitivity
    outside 0..3, the two derived frame counts, whose division raises for
    a frame duration of [0], and the backup directory, created when it is
    missing.  The recorder starts out not recording with an empty
    buffer. *)
Definition AudioRecorder_init (cfg : Config) (f : FS)
  : Exn + (AudioRecorder * FS) :=
  if negb ((0 <=? VAD_SENSITIVITY cfg) && (VAD_SENSITIVITY cfg <=? 3))%bool
  then inl ValueError else
  match frames_of_seconds (SILENCE_DURATION_BEFORE_SAVE cfg)
          (FRAME_DURATION cfg) with
  | inl e => inl e
  | inr threshold =>
  match frames_of_seconds (TRAILING_SILENCE_TO_KEEP cfg)
          (FRAME_DURATION cfg) with
  | inl e => inl e
  | inr trailing =>
  let s := {|
    sample_rate := SAMPLE_RATE cfg;
    frame_duration := FRAME_DURATION cfg;
    frame_size :=
      py_int (Qdiv (inject_Z (SAMPLE_RATE cfg * FRAME_DURATION cfg))
                   (inject_Z 1000));
    recording := false;
    buffer := [];
    silence_threshold := threshold;
    silence_counter := 0;
    trailing_silence_frames := trailing;
    network_path := NETWORK_PATH cfg;
    backup_path := BACKUP_PATH cfg;
    speech_detected_in_recording := false;
    speech_frame_counter := 0;
    speech_pre_buffer := []
  |} in
  if path_exists (BACKUP_PATH cfg) f then inr (s, f)
  else match os_makedirs (BACKUP_PATH cfg) f with
       | inl e => inl e
       | inr f' => inr (s, f')
       end
  end end.

(** ** Writing a file *)

(** Opening [filepath] in [mode] and writing [pcm] through the handle:
    either the open is refused and nothing changes, or the file is created
    or replaced. *)
Definition write_file (mode : OpenMode) (filepath : string) (f : AudioFile)
  : M unit :=
  d ← get_fs;
  match open_check mode filepath d with
  | Some e => raise e
  | None => put_fs (store_file filepath f d)
  end.

(** [_save_to_wave_file]: [wave.open(filepath, 'wb')], one channel, two
    bytes per sample. *)
Definition _save_to_wave_file (audio_data : list byte) (filepath : string)
  : M unit :=
  s ← get_self;
  write_file Mode_wb filepath
    {| af_container := WAV; af_channels := 1; af_sampwidth := 2;
       af_samplerate := sample_rate s; af_pcm := audio_data |}.

(** [_save_to_flac_file]: [sf.SoundFile(filepath, mode='x', ...)], one
    channel, subtype PCM_16. *)
Definition _save_to_flac_file (audio_data : list byte) (filepath : string)
  : M unit :=
  s ← get_self;
  write_file Mode_x filepath
    {| af_container := FLAC; af_channels := 1; af_sampwidth := 2;
       af_samplerate := sample_rate s; af_pcm := audio_data |}.

Definition _write_audio_file (cfg : Config) (audio_data : list byte)
    (filepath : string) : M unit :=
  emit (Call_write_audio_file filepath);;
  if String.eqb (PyStr.lower (OUTPUT_FORMAT cfg)) "wav"
  then _save_to_wave_file audio_data filepath
  else _save_to_flac_file audio_data filepath.

(** ** AudioRecorder.save_recording *)

(** The trailing-silence trim (the first [if] after the length guard):
    when more silence was counted than is to be kept, the excess is cut
    from the end of the buffer. *)
Definition trim_trailing_silence (s : AudioRecorder) : AudioRecorder :=
  if silence_counter s >? trailing_silence_frames s then
    let trim_frames := silence_counter s - trailing_silence_frames s in
    set_buffer (slice_to_minus trim_frames (buffer s)) s
  else s.

Definition save_recording (cfg : Config) : M unit :=
  s ← get_self;
  emit (Call_save_recording (buffer s) (silence_counter s));;
  if len (buffer s) <=? 1 then mret tt else
  upd trim_trailing_silence;;
  s ← get_self;
  now ← datetime_now;
  let filename := "recording_" ++ now ++ "." ++ OUTPUT_FORMAT cfg in
  audio_data ← np_frombuffer_int16 (bytes_join (buffer s));
  let network_file_path := PyStr.path_join (network_path s) filename in
  try_except_Exception
    (d ← get_fs;
     (if negb (path_exists (network_path s) d)
      then raise FileNotFoundError else mret tt);;
     _write_audio_file cfg audio_data network_file_path;;
     emit (Print (Saved_network network_file_path)))
    (fun _ =>
       let backup_file_path := PyStr.path_join (backup_path s) filename in
       try_except_Exception
         (_write_audio_file cfg audio_data backup_file_path;;
          emit (Print (Saved_backup backup_file_path)))
         (fun e => emit (Print (Failed_to_save e)))).

(** ** AudioRecorder.record *)

(** What the classifier does with one frame. *)
Inductive VadResult :=
| Vad_returns (is_speech : bool)
| Vad_raises.

(** What one call of [stream.read] leads to, with the wall-clock time at
    which it does: a frame, handed to the classifier, or an exception
    ([KeyboardInterrupt] when the user stops the program). *)
Inductive ReadResult :=
| Read_frame (frame : Frame) (vad : VadResult) (now : string)
| Read_raises (e : Exn) (now : string).

(** [is_speech] as the loop computes it: a failing classifier counts as
    non-speech. *)
Definition verdict (vad : VadResult) : bool :=
  match vad with
  | Vad_returns b => b
  | Vad_raises => false
  end.

(** The body of the [while True] loop after the frame is read. *)
Definition process_frame (cfg : Config) (frame : Frame) (vad : VadResult)
  : M unit :=
  let is_speech := verdict vad in
  if is_speech then
    upd (set_speech_detected_in_recording true);;
    upd (set_silence_counter 0);;
    upd (fun s => set_speech_frame_counter (speech_frame_counter s + 1) s);;
    upd (fun s => set_speech_pre_buffer (speech_pre_buffer s ++ [frame]) s);;
    s ← get_self;
    (if (negb (recording s)
         && (speech_frame_counter s >=? MINIMUM_CONSECUTIVE_SPEECH_FRAMES cfg))%bool
     then
       emit (Print Speech_confirmed);;
       upd (set_recording true);;
       upd (fun s => set_buffer (speech_pre_buffer s) s);;
       upd (set_speech_pre_buffer [])
     else mret tt);;
    s ← get_self;
    if recording s
    then upd (fun s => set_buffer (buffer s ++ [frame]) s)
    else mret tt
  else
    upd (set_speech_frame_counter 0);;
    s ← get_self;
    (if negb (recording s) then upd (set_speech_pre_buffer []) else mret tt);;
    s ← get_self;
    if recording s then
      upd (fun s => set_silence_counter (silence_counter s + 1) s);;
      upd (fun s => set_buffer (buffer s ++ [frame]) s);;
      s ← get_self;
      if silence_counter s >=? silence_threshold s then
        (if speech_detected_in_recording s then save_recording cfg
         else mret tt);;
        upd (set_recording false);;
        upd (set_buffer []);;
        upd (set_silence_counter 0);;
        upd (set_speech_detected_in_recording false)
      else mret tt
    else mret tt.

(** The [while True] loop over the reads that are supplied.  It has no
    exit of its own: it ends with the exception of a read or of the body,
    and is otherwise still waiting for a frame. *)
Fixpoint while_True (cfg : Config) (reads : list ReadResult) : M unit :=
  match reads with
  | [] => blocked
  | Read_frame frame vad now :: rest =>
      set_clock now;;
      process_frame cfg frame vad;;
      while_True cfg rest
  | Read_raises e now :: _ =>
      set_clock now;;
      raise e
  end.

(** [_get_blue_snowball_device_index]: the first device whose lower-cased
    name contains "snowball". *)
Fixpoint _get_blue_snowball_device_index (names : list string) (i : nat)
  : option nat :=
  match names with
  | [] => None
  | name :: rest =>
      if str_contains "snowball" (PyStr.lower name) then Some i
      else _get_blue_snowball_device_index rest (S i)
  end.

(** The handler of [KeyboardInterrupt]. *)
Definition on_KeyboardInterrupt (cfg : Config) : M unit :=
  emit (Print Stopped_by_user);;
  s ← get_self;
  if (recording s && negb (len (buffer s) =? 0)
      && speech_detected_in_recording s)%bool
  then save_recording cfg
  else mret tt.

(** The [finally] clause. *)
Definition release : M unit :=
  emit Stream_stop;; emit Stream_close;; emit Audio_terminate.

(** [record], given the names of the input devices in enumeration order
    and the results of the reads. *)
Definition record (cfg : Config) (devices : list string)
    (reads : list ReadResult) : M unit :=
  match _get_blue_snowball_device_index devices 0 with
  | None => emit Audio_terminate;; raise PlainException
  | Some device_index =>
      emit (Audio_open device_index);;
      emit (Print Listening);;
      upd (set_speech_frame_counter 0);;
      upd (set_speech_pre_buffer []);;
      try_finally
        (try_except_KeyboardInterrupt
           (while_True cfg reads)
           (on_KeyboardInterrupt cfg))
        release
  end.

(** The program: construct the recorder on a file system, then [record]. *)
Definition main (cfg : Config) (f : FS) (devices : list string)
    (reads : list ReadResult) : Exn + (Res unit * Sys) :=
  match AudioRecorder_init cfg f with
  | inl e => inl e
  | inr (s, f') => inr (record cfg devices reads (mkSys s f' "" []))
  end.

(** ** A concrete setting *)

(** Frame number [n]: one 16-bit sample, whose low byte is [n]. *)
Definition sample_frame (n : nat) : Frame :=
  [match Byte.of_nat n with Some b => b | None => x00 end; x00].

Definition speech_reads (first count : nat) : list ReadResult :=
  map (fun n => Read_frame (sample_frame n) (Vad_returns true)
                  "20240101_120000") (seq first count).

Definition silence_reads (first count : nat) : list ReadResult :=
  map (fun n => Read_frame (sample_frame n) (Vad_returns false)
                  "20240101_120003") (seq first count).

Definition two_devices : list string := ["HDA Intel PCH"; "Blue Snowball"].

(** A disk without the network mount and without the backup directory. *)
Definition empty_disk : FS := mkFS ∅ ∅ ∅.

(** The recorder [__init__] builds from [config.py], and the disk it
    leaves when it starts on [empty_disk]. *)
Definition fresh_recorder : AudioRecorder :=
  mkRecorder 16000 30 480 false [] 100 0 3
    "/mnt/smbhome/audio_in/" "./backup_audio/" false 0 [].

Definition backup_disk : FS :=
  mkFS {[ "./backup_audio"; "."; "" ]} ∅ ∅.

Definition fresh_sys : Sys := mkSys fresh_recorder backup_disk "" [].

(** The state in which [record] is after the given reads. *)
Definition state_after (reads : list ReadResult) : Sys :=
  snd (record config two_devices reads fresh_sys).

(** The state of the loop alone after the given reads. *)
Definition loop_state_after (reads : list ReadResult) : Sys :=
  snd (while_True config reads fresh_sys).

(** ** Notions used in the statements *)

(** The events that belong to a segment: the onset message, a call of
    [save_recording], a write and its outcome. *)
Definition segment_event (e : Event) : bool :=
  match e with
  | Print Speech_confirmed | Print (Saved_network _) | Print (Saved_backup _)
  | Print (Failed_to_save _) | Call_save_recording _ _
  | Call_write_audio_file _ => true
  | _ => false
  end.

(** Reads that deliver the given frames, each classified as speech. *)
Definition speech_of (xs : list (Frame * string)) : list ReadResult :=
  map (fun x => Read_frame (fst x) (Vad_returns true) (snd x)) xs.

(** The name [save_recording] gives the file, the mode in which the
    configured writer opens it and what the writer stores. *)
Definition output_filename (cfg : Config) (now : string) : string :=
  ("recording_" ++ now ++ "." ++ OUTPUT_FORMAT cfg)%string.

Definition open_mode_of (cfg : Config) : OpenMode :=
  if String.eqb (PyStr.lower (OUTPUT_FORMAT cfg)) "wav" then Mode_wb
  else Mode_x.

Definition audio_file_of (cfg : Config) (s : AudioRecorder)
    (audio_data : list byte) : AudioFile :=
  {| af_container :=
       if String.eqb (PyStr.lower (OUTPUT_FORMAT cfg)) "wav" then WAV
       else FLAC;
     af_channels := 1; af_sampwidth := 2;
     af_samplerate := sample_rate s; af_pcm := audio_data |}.

(** The state in which [record] enters its loop once the stream of device
    [i] is open. *)
Definition loop_entry (i : nat) (w : Sys) : Sys :=
  mkSys (set_speech_pre_buffer [] (set_speech_frame_counter 0 (self w)))
    (fs w) (clock w) (trace w ++ [Audio_open i; Print Listening]).

(** What the [finally] clause adds to the trace. *)
Definition released : list Event := [Stream_stop; Stream_close; Audio_terminate].

(** A frame of 16-bit samples has an even number of bytes; [stream.read]
    on a [paInt16] stream returns no others. *)
Definition pcm16_frame (f : Frame) : Prop := Nat.even (length f) = true.

(** The [save_recording] calls in a trace, oldest first. *)
Fixpoint save_calls (t : list Event) : list (list Frame * Z) :=
  match t with
  | [] => []
  | Call_save_recording b n :: r => (b, n) :: save_calls r
  | _ :: r => save_calls r
  end.

(** The verdicts the loop computes until the first read that raises. *)
Fixpoint verdicts (reads : list ReadResult) : list bool :=
  match reads with
  | Read_frame _ vad _ :: rest => verdict vad :: verdicts rest
  | _ => []
  end.

(** The length of the longest run of consecutive speech verdicts in [vs],
    where a run of length [cur] is already under way and [best] is the
    longest run seen before it. *)
Fixpoint speech_runs (cur best : Z) (vs : list bool) : Z :=
  match vs with
  | [] => Z.max cur best
  | true :: rest => speech_runs (cur + 1) best rest
  | false :: rest => speech_runs 0 (Z.max cur best) rest
  end.

Definition longest_speech_run (vs : list bool) : Z := speech_runs 0 0 vs.

(** The recorder when the closing silence frame has been counted and
    appended, and the assignments that end a segment. *)
Definition at_close (frame : Frame) (s : AudioRecorder) : AudioRecorder :=
  set_buffer (buffer s ++ [frame])
    (set_silence_counter (silence_counter s + 1)
       (set_speech_frame_counter 0 s)).

Definition reset_after_close (s' : AudioRecorder) : AudioRecorder :=
  set_speech_detected_in_recording false
    (set_silence_counter 0 (set_buffer [] (set_recording false s'))).

(** The flag invariant of the loop. *)
Definition flag_invariant (s : AudioRecorder) : Prop :=
  recording s = true -> speech_detected_in_recording s = true.

(** ** The concrete setting, continued *)

(** The recorder on which [save_recording] is called when the hundredth
    silence frame closes the segment of seven speech frames. *)
Definition closing_recorder : AudioRecorder :=
  at_close (sample_frame 107)
    (self (loop_state_after (speech_reads 1 7 ++ silence_reads 8 99))).

Definition closing_sys : Sys :=
  mkSys closing_recorder backup_disk "20240101_120003"%string [].

(** A disk with the network directory mounted, on which the first file of
    the scenario already exists. *)
Definition old_recording : AudioFile := mkAudioFile WAV 1 2 16000 [x2a; x00].

Definition mounted_disk : FS :=
  mkFS {[ "/mnt/smbhome/audio_in"%string; "./backup_audio"%string ]}
       {[ "/mnt/smbhome/audio_in/recording_20240101_120003.wav"%string
          := old_recording ]}
       ∅.

(** What the fallback write of [save_recording] leaves, [before] being what
    the call has added to the trace until then: the file at the fallback
    path and the message, or an unchanged disk and the failure message. *)
Definition fallback_outcome (cfg : Config) (w : Sys) (before : list Event)
    (w' : Sys) : Prop :=
  let trimmed := trim_trailing_silence (self w) in
  let fallback :=
    PyStr.path_join (backup_path (self w)) (output_filename cfg (clock w)) in
  match open_check (open_mode_of cfg) fallback (fs w) with
  | None =>
      files (fs w')
      = <[fallback := audio_file_of cfg (self w) (bytes_join (buffer trimmed))]>
          (files (fs w))
      /\ trace w'
         = (trace w ++ before ++ [Call_write_audio_file fallback;
                                   Print (Saved_backup fallback)])%list
  | Some e =>
      files (fs w') = files (fs w)
      /\ trace w'
         = (trace w ++ before ++ [Call_write_audio_file fallback;
                                   Print (Failed_to_save e)])%list
  end.

(** The frames the loop reads until the first read that raises. *)
Fixpoint frames_read (reads : list ReadResult) : list Frame :=
  match reads with
  | Read_frame frame _ _ :: rest => frame :: frames_read rest
  | _ => []
  end.

(** The length of the longest run of consecutive non-speech verdicts in
    [vs], where a run of length [cur] is already under way and [best] is
    the longest run seen before it. *)
Fixpoint silence_runs (cur best : Z) (vs : list bool) : Z :=
  match vs with
  | [] => Z.max cur best
  | false :: rest => silence_runs (cur + 1) best rest
  | true :: rest => silence_runs 0 (Z.max cur best) rest
  end.

(** Every read delivers a frame of 16-bit samples; none raises. *)
Definition only_frames (reads : list ReadResult) : Prop :=
  Forall (fun r => match r with
                   | Read_frame frame _ _ => pcm16_frame frame
                   | Read_raises _ _ => False
                   end) reads.

(** What [save_recording] leaves of a segment of more than one frame: no
    directory is created; the segment goes to the primary path when the
    network directory exists and the write there is accepted, and to the
    fallback path otherwise. *)
Definition persist_outcome (cfg : Config) (w w' : Sys) : Prop :=
  let entry :=
    Call_save_recording (buffer (self w)) (silence_counter (self w)) in
  let primary :=
    PyStr.path_join (network_path (self w)) (output_filename cfg (clock w)) in
  let file :=
    audio_file_of cfg (self w)
      (bytes_join (buffer (trim_trailing_silence (self w)))) in
  dirs (fs w') = dirs (fs w)
  /\ (path_exists (network_path (self w)) (fs w) = false ->
      fallback_outcome cfg w [entry] w')
  /\ (path_exists (network_path (self w)) (fs w) = true ->
      match open_check (open_mode_of cfg) primary (fs w) with
      | None =>
          files (fs w') = <[primary := file]> (files (fs w))
          /\ trace w'
             = (trace w ++ [entry; Call_write_audio_file primary;
                            Print (Saved_network primary)])%list
      | Some _ =>
          fallback_outcome cfg w [entry; Call_write_audio_file primary] w'
      end).

(** What the loop keeps true of the pre-buffer and of a segment in
    progress when the frames are frames of 16-bit samples: they hold such
    frames only, and a segment in progress has more than one. *)
Definition segment_invariant (s : AudioRecorder) : Prop :=
  Forall pcm16_frame (speech_pre_buffer s)
  /\ (recording s = true ->
      Forall pcm16_frame (buffer s) /\ 1 < len (buffer s)).

(** The frames classified as speech among those the loop reads until the
    first read that raises. *)
Fixpoint speech_frames (reads : list ReadResult) : list Frame :=
  match reads with
  | Read_frame frame vad _ :: rest =>
      if verdict vad then frame :: speech_frames rest else speech_frames rest
  | _ => []
  end.

(** The number of consecutive non-speech verdicts at the end of [vs],
    where [cur] of them were counted before [vs]: the silence counter
    after [vs] of a recorder that keeps recording. *)
Fixpoint silence_tail (cur : Z) (vs : list bool) : Z :=
  match vs with
  | [] => cur
  | true :: rest => silence_tail 0 rest
  | false :: rest => silence_tail (cur + 1) rest
  end.

(** ** Notions used in the further properties *)

(** What the loop keeps true of a recorder whose silence threshold is
    [thr]: while recording, the silence counter is below the threshold and
    the buffer holds at least two frames more than the counter. *)
Definition loop_invariant (thr : Z) (s : AudioRecorder) : Prop :=
  silence_threshold s = thr
  /\ (recording s = true ->
      0 <= silence_counter s < thr
      /\ silence_counter s + 2 <= len (buffer s)).

(** A segment as the loop hands it to [save_recording]: closed by exactly
    [thr] counted silence frames, and at least two frames longer. *)
Definition closed_segment (thr : Z) (c : list Frame * Z) : Prop :=
  snd c = thr /\ thr + 2 <= len (fst c).



(** A path component without a separator. *)
Definition no_slash (s : string) : Prop :=
  forallb (fun c => negb (PyStr.is_slash c)) (list_ascii_of_string s) = true.

(** Reads that deliver the given frames, each classified as non-speech. *)
Definition silence_of (xs : list (Frame * string)) : list ReadResult :=
  map (fun x => Read_frame (fst x) (Vad_returns false) (snd x)) xs.

(** [s'] has the attributes that [__init__] derives from the
    configuration as [s] has them. *)
Definition same_settings (s s' : AudioRecorder) : Prop :=
  sample_rate s' = sample_rate s
  /\ frame_duration s' = frame_duration s
  /\ frame_size s' = frame_size s
  /\ silence_threshold s' = silence_threshold s
  /\ trailing_silence_frames s' = trailing_silence_frames s
  /\ network_path s' = network_path s
  /\ backup_path s' = backup_path s.

(** The reads with every failure of the classifier replaced by a
    non-speech verdict. *)
Definition vad_failures_as_silence (reads : list ReadResult)
  : list ReadResult :=
  map (fun r => match r with
                | Read_frame frame Vad_raises now =>
                    Read_frame frame (Vad_returns false) now
                | other => other
                end) reads.

(** * Properties *)

Local Close Scope string_scope.

(** Unfolds the methods and the monad down to the state they act on. *)
Ltac run_py :=
  cbv [process_frame save_recording on_KeyboardInterrupt release
       _write_audio_file _save_to_wave_file _save_to_flac_file write_file
       np_frombuffer_int16 try_except_Exception try_except_KeyboardInterrupt
       try_finally mbind mret M_bind M_ret bind ret raise blocked get_self upd
       get_fs put_fs datetime_now set_clock emit];
  cbn [self fs clock trace].

(** ** Bytes and slices *)

Lemma even_length_app {A} (a b : list A) :
  Nat.even (length a) = true -> Nat.even (length b) = true ->
  Nat.even (length (a ++ b)) = true.
Proof.
  intros Ha Hb. rewrite length_app, Nat.even_add, Ha, Hb. reflexivity.
Qed.

Lemma bytes_join_even (frames : list Frame) :
  Forall pcm16_frame frames -> Nat.even (length (bytes_join frames)) = true.
Proof.
  unfold bytes_join. induction 1 as [|f fs Hf _ IH]; cbn; [reflexivity|].
  now apply even_length_app.
Qed.

Lemma Forall_firstn {A} (P : A -> Prop) (n : nat) (l : list A) :
  Forall P l -> Forall P (firstn n l).
Proof.
  intros H. revert n. induction H as [|x l Hx _ IH]; intros [|n]; cbn;
    constructor; auto.
Qed.

Lemma slice_to_minus_Forall {A} (P : A -> Prop) (k : Z) (l : list A) :
  Forall P l -> Forall P (slice_to_minus k l).
Proof.
  intros H. unfold slice_to_minus. destruct (k =? 0); [constructor|].
  now apply Forall_firstn.
Qed.

Lemma trim_trailing_silence_Forall (P : Frame -> Prop) (s : AudioRecorder) :
  Forall P (buffer s) -> Forall P (buffer (trim_trailing_silence s)).
Proof.
  intros H. unfold trim_trailing_silence.
  destruct (silence_counter s >? trailing_silence_frames s); cbn; [|exact H].
  now apply slice_to_minus_Forall.
Qed.

(** Cutting [k] elements from the end of [pre ++ sil] when [sil] has at
    least [k] elements cuts them from [sil]. *)
Lemma slice_to_minus_app {A} (k : Z) (pre sil : list A) :
  0 < k -> k <= len sil ->
  slice_to_minus k (pre ++ sil)
  = pre ++ firstn (Z.to_nat (len sil - k)) sil.
Proof.
  intros Hk Hle. unfold slice_to_minus, len in *.
  destruct (k =? 0) eqn:E; [lia|].
  rewrite length_app, firstn_app.
  rewrite firstn_all2 by lia. f_equal. f_equal. lia.
Qed.

(** ** The file-system operations *)

Lemma open_check_is_Exception mode path d e :
  open_check mode path d = Some e -> is_Exception e = true.
Proof.
  unfold open_check, os_refusal. destruct mode;
    repeat case_bool_decide; cbn; intros [= <-]; reflexivity.
Qed.

(** Case analysis on the innermost [match] of the goal. *)
Ltac break_match :=
  match goal with
  | |- context [match ?x with _ => _ end] =>
      lazymatch x with
      | context [match _ with _ => _ end] => fail
      | _ => destruct x eqn:?
      end
  end.

(** ** What [save_recording] touches *)

(** Whatever it returns, [save_recording] logs its entry first and makes
    no nested call of itself, changes neither the clock nor the set of
    directories, and leaves the recorder as it was or with its buffer
    trimmed. *)
Lemma save_recording_frame cfg w r w' :
  save_recording cfg w = (r, w') ->
  r <> Blocked /\ clock w' = clock w
  /\ dirs (fs w') = dirs (fs w) /\ denied (fs w') = denied (fs w)
  /\ (self w' = self w \/ self w' = trim_trailing_silence (self w))
  /\ exists t,
       trace w'
       = trace w
         ++ Call_save_recording (buffer (self w)) (silence_counter (self w))
            :: t
       /\ save_calls t = [].
Proof.
  run_py.
  repeat (break_match; cbn [self fs clock trace is_Exception] in * );
    intros [= <- <-]; cbn [self fs clock trace store_file dirs denied];
    (split; [discriminate|]); (split; [reflexivity|]);
    (split; [reflexivity|]); (split; [reflexivity|]);
    (split; [auto|]); rewrite <- ?app_assoc; cbn [app]; eexists;
    (split; [reflexivity|]); reflexivity.
Qed.

(** On frames of 16-bit samples [save_recording] returns normally: every
    exception of the two writes is handled inside. *)
Lemma save_recording_returns cfg w :
  Forall pcm16_frame (buffer (self w)) ->
  exists w', save_recording cfg w = (Ret tt, w').
Proof.
  intros Hb. apply (trim_trailing_silence_Forall pcm16_frame) in Hb.
  apply bytes_join_even in Hb. revert Hb.
  run_py. intros Hb.
  destruct (len (buffer (self w)) <=? 1); [eexists; reflexivity|].
  cbn [self fs clock trace]. rewrite Hb. cbn [self fs clock trace].
  repeat (break_match; cbn [self fs clock trace is_Exception] in * );
    try (eexists; reflexivity);
    repeat match goal with
    | H : open_check _ _ _ = Some ?e, H' : is_Exception ?e = false |- _ =>
        apply open_check_is_Exception in H; congruence
    | H : (_, _) = (_, _) |- _ => injection H as; subst
    | H : is_Exception _ = false |- _ => discriminate H
    end.
Qed.

Lemma trim_trailing_silence_fields s :
  recording (trim_trailing_silence s) = recording s
  /\ silence_counter (trim_trailing_silence s) = silence_counter s
  /\ speech_detected_in_recording (trim_trailing_silence s)
     = speech_detected_in_recording s
  /\ speech_frame_counter (trim_trailing_silence s) = speech_frame_counter s
  /\ speech_pre_buffer (trim_trailing_silence s) = speech_pre_buffer s
  /\ silence_threshold (trim_trailing_silence s) = silence_threshold s
  /\ trailing_silence_frames (trim_trailing_silence s)
     = trailing_silence_frames s.
Proof.
  unfold trim_trailing_silence.
  destruct (silence_counter s >? trailing_silence_frames s); cbn; auto 10.
Qed.

(** ** One iteration of the loop, case by case *)

Section Steps.
Variables (cfg : Config) (frame : Frame) (vad : VadResult) (w : Sys).
Local Abbreviation s := (self w).

Lemma process_frame_speech_recording :
  verdict vad = true -> recording s = true ->
  process_frame cfg frame vad w
  = (Ret tt,
     mkSys (set_buffer (buffer s ++ [frame])
              (set_speech_pre_buffer (speech_pre_buffer s ++ [frame])
                 (set_speech_frame_counter (speech_frame_counter s + 1)
                    (set_silence_counter 0
                       (set_speech_detected_in_recording true s)))))
           (fs w) (clock w) (trace w)).
Proof.
  intros Hv Hr. run_py. rewrite Hv. cbn. rewrite Hr. cbn. rewrite Hr. reflexivity.
Qed.

Lemma process_frame_speech_arming :
  verdict vad = true -> recording s = false ->
  speech_frame_counter s + 1 < MINIMUM_CONSECUTIVE_SPEECH_FRAMES cfg ->
  process_frame cfg frame vad w
  = (Ret tt,
     mkSys (set_speech_pre_buffer (speech_pre_buffer s ++ [frame])
              (set_speech_frame_counter (speech_frame_counter s + 1)
                 (set_silence_counter 0
                    (set_speech_detected_in_recording true s))))
           (fs w) (clock w) (trace w)).
Proof.
  intros Hv Hr Hc. run_py. rewrite Hv. cbn. rewrite Hr. cbn.
  destruct (Z.geb_spec (speech_frame_counter (self w) + 1) (MINIMUM_CONSECUTIVE_SPEECH_FRAMES cfg)); [lia|].
  cbn. rewrite Hr. reflexivity.
Qed.

Lemma process_frame_speech_onset :
  verdict vad = true -> recording s = false ->
  MINIMUM_CONSECUTIVE_SPEECH_FRAMES cfg <= speech_frame_counter s + 1 ->
  process_frame cfg frame vad w
  = (Ret tt,
     mkSys (set_buffer ((speech_pre_buffer s ++ [frame]) ++ [frame])
              (set_speech_pre_buffer []
                 (set_recording true
                    (set_speech_frame_counter (speech_frame_counter s + 1)
                       (set_silence_counter 0
                          (set_speech_detected_in_recording true s))))))
           (fs w) (clock w) (trace w ++ [Print Speech_confirmed])).
Proof.
  intros Hv Hr Hc. run_py. rewrite Hv. cbn. rewrite Hr. cbn.
  destruct (Z.geb_spec (speech_frame_counter (self w) + 1) (MINIMUM_CONSECUTIVE_SPEECH_FRAMES cfg)); [|lia].
  reflexivity.
Qed.

Lemma process_frame_silence_idle :
  verdict vad = false -> recording s = false ->
  process_frame cfg frame vad w
  = (Ret tt,
     mkSys (set_speech_pre_buffer [] (set_speech_frame_counter 0 s))
           (fs w) (clock w) (trace w)).
Proof.
  intros Hv Hr. run_py. rewrite Hv. cbn. rewrite Hr. cbn. rewrite Hr. reflexivity.
Qed.

Lemma process_frame_silence_recording :
  verdict vad = false -> recording s = true ->
  silence_counter s + 1 < silence_threshold s ->
  process_frame cfg frame vad w
  = (Ret tt,
     mkSys (set_buffer (buffer s ++ [frame])
              (set_silence_counter (silence_counter s + 1)
                 (set_speech_frame_counter 0 s)))
           (fs w) (clock w) (trace w)).
Proof.
  intros Hv Hr Hc. run_py. rewrite Hv. cbn. rewrite Hr. cbn. rewrite Hr. cbn.
  destruct (Z.geb_spec (silence_counter (self w) + 1) (silence_threshold (self w))); [lia|].
  reflexivity.
Qed.

(** The recorder when the closing silence frame has been counted and
    appended. *)

Lemma process_frame_silence_close :
  verdict vad = false -> recording s = true ->
  silence_threshold s <= silence_counter s + 1 ->
  process_frame cfg frame vad w
  = if speech_detected_in_recording s then
      match save_recording cfg (mkSys (at_close frame s) (fs w) (clock w) (trace w)) with
      | (Ret _, w') =>
          (Ret tt, mkSys (reset_after_close (self w')) (fs w') (clock w') (trace w'))
      | (Raise e, w') => (Raise e, w')
      | (Blocked, w') => (Blocked, w')
      end
    else (Ret tt, mkSys (reset_after_close (at_close frame s)) (fs w) (clock w) (trace w)).
Proof.
  intros Hv Hr Hc. unfold at_close, reset_after_close.
  cbv [process_frame mbind mret M_bind M_ret bind ret get_self upd]. cbn [self fs clock trace].
  rewrite Hv. cbn. rewrite Hr. cbn. rewrite Hr. cbn.
  destruct (Z.geb_spec (silence_counter (self w) + 1) (silence_threshold (self w))); [|lia].
  destruct (speech_detected_in_recording (self w)); [|reflexivity].
  destruct (save_recording cfg _) as [[[]| |] w']; reflexivity.
Qed.
End Steps.

(** ** The loop over a sequence of reads *)

Lemma process_frame_not_Blocked cfg frame vad w r w' :
  process_frame cfg frame vad w = (r, w') -> r <> Blocked.
Proof.
  destruct (verdict vad) eqn:Hv, (recording (self w)) eqn:Hr.
  - rewrite process_frame_speech_recording by assumption.
    intros [= <- <-]. discriminate.
  - destruct (Z_lt_le_dec (speech_frame_counter (self w) + 1)
                (MINIMUM_CONSECUTIVE_SPEECH_FRAMES cfg)).
    + rewrite process_frame_speech_arming by assumption.
      intros [= <- <-]. discriminate.
    + rewrite process_frame_speech_onset by assumption.
      intros [= <- <-]. discriminate.
  - destruct (Z_lt_le_dec (silence_counter (self w) + 1)
                (silence_threshold (self w))).
    + rewrite process_frame_silence_recording by assumption.
      intros [= <- <-]. discriminate.
    + rewrite process_frame_silence_close by assumption.
      destruct (speech_detected_in_recording (self w)).
      * destruct (save_recording cfg _) as [[[]| |] w1] eqn:Hs;
          intros [= <- <-]; try discriminate.
        apply save_recording_frame in Hs. tauto.
      * intros [= <- <-]. discriminate.
  - rewrite process_frame_silence_idle by assumption.
    intros [= <- <-]. discriminate.
Qed.

Lemma while_True_append (cfg : Config) (a b : list ReadResult) (w : Sys) :
  while_True cfg (a ++ b) w
  = match while_True cfg a w with
    | (Blocked, w1) => while_True cfg b w1
    | other => other
    end.
Proof.
  revert w. induction a as [|[frame vad now | e now] a IH]; intros w.
  - reflexivity.
  - cbn [app while_True]. cbv [mbind M_bind bind set_clock].
    destruct (process_frame cfg frame vad _) as [[[]| |] w1] eqn:Hp;
      [apply IH|reflexivity|].
    apply process_frame_not_Blocked in Hp. congruence.
  - reflexivity.
Qed.

Lemma while_True_never_returns cfg reads : forall w r w',
  while_True cfg reads w = (r, w') -> r <> Ret tt.
Proof.
  induction reads as [|[frame vad now | e now] rest IH]; intros w r w'.
  - intros [= <- <-]. discriminate.
  - cbn [while_True]. cbv [mbind M_bind bind set_clock].
    destruct (process_frame cfg frame vad _) as [[[]| |] w1].
    + apply IH.
    + intros [= <- <-]. discriminate.
    + intros [= <- <-]. discriminate.
  - cbn [while_True]. cbv [mbind M_bind bind set_clock raise].
    intros [= <- <-]. discriminate.
Qed.

Lemma len_app {A} (a b : list A) : len (a ++ b) = len a + len b.
Proof. unfold len. rewrite length_app. lia. Qed.

Lemma silence_runs_lower_bound vs : forall cur best,
  cur <= silence_runs cur best vs /\ best <= silence_runs cur best vs.
Proof.
  induction vs as [|[] vs IH]; intros cur best; cbn [silence_runs].
  - lia.
  - destruct (IH 0 (Z.max cur best)). lia.
  - destruct (IH (cur + 1) best). lia.
Qed.

(** ** The concrete setting is the one [__init__] produces *)

Lemma AudioRecorder_init_config :
  AudioRecorder_init config empty_disk = inr (fresh_recorder, backup_disk).
Proof. vm_compute. reflexivity. Qed.

(** ** Non-speech before onset *)

(** C6.  Whatever state the loop is in, a frame that is not classified as
    speech (a classifier failure included) and is processed while the
    recorder is not recording leaves the consecutive-speech counter at
    zero and the pre-buffer empty, and the recorder still not recording. *)
Theorem nonspeech_before_onset_resets (cfg : Config) (frame : Frame)
    (vad : VadResult) (w : Sys) :
  verdict vad = false -> recording (self w) = false ->
  exists w',
    process_frame cfg frame vad w = (Ret tt, w')
    /\ recording (self w') = false
    /\ speech_frame_counter (self w') = 0
    /\ speech_pre_buffer (self w') = [].
Proof.
  intros Hv Hr. rewrite process_frame_silence_idle by assumption.
  eexists. split; [reflexivity|]. cbn. auto.
Qed.

Lemma nonspeech_before_onset_resets_witness :
  speech_pre_buffer (self (state_after (speech_reads 1 3)))
  = [sample_frame 1; sample_frame 2; sample_frame 3]
  /\ exists w',
    process_frame config (sample_frame 4) Vad_raises
      (state_after (speech_reads 1 3)) = (Ret tt, w')
    /\ recording (self w') = false
    /\ speech_frame_counter (self w') = 0
    /\ speech_pre_buffer (self w') = [].
Proof.
  split; [reflexivity|].
  apply (nonspeech_before_onset_resets config (sample_frame 4) Vad_raises
           (state_after (speech_reads 1 3))); reflexivity.
Defined.

(** ** The speech flag while recording *)

Lemma save_recording_flags cfg w r w' :
  save_recording cfg w = (r, w') ->
  recording (self w') = recording (self w)
  /\ speech_detected_in_recording (self w')
     = speech_detected_in_recording (self w)
  /\ speech_pre_buffer (self w') = speech_pre_buffer (self w)
  /\ speech_frame_counter (self w') = speech_frame_counter (self w)
  /\ silence_counter (self w') = silence_counter (self w).
Proof.
  intros H. apply save_recording_frame in H as (_ & _ & _ & _ & [-> | ->] & _).
  - auto.
  - pose proof (trim_trailing_silence_fields (self w)) as (-> & -> & -> & -> & -> & _).
    auto.
Qed.

Lemma process_frame_flag_invariant cfg frame vad w r w' :
  flag_invariant (self w) ->
  process_frame cfg frame vad w = (r, w') ->
  flag_invariant (self w').
Proof.
  unfold flag_invariant. intros Hinv.
  destruct (verdict vad) eqn:Hv, (recording (self w)) eqn:Hr.
  - rewrite process_frame_speech_recording by assumption.
    intros [= <- <-]. reflexivity.
  - destruct (Z_lt_le_dec (speech_frame_counter (self w) + 1)
                (MINIMUM_CONSECUTIVE_SPEECH_FRAMES cfg)).
    + rewrite process_frame_speech_arming by assumption.
      intros [= <- <-]. reflexivity.
    + rewrite process_frame_speech_onset by assumption.
      intros [= <- <-]. reflexivity.
  - destruct (Z_lt_le_dec (silence_counter (self w) + 1)
                (silence_threshold (self w))).
    + rewrite process_frame_silence_recording by assumption.
      intros [= <- <-]. cbn. auto.
    + rewrite process_frame_silence_close by assumption.
      rewrite (Hinv eq_refl).
      destruct (save_recording cfg _) as [[[]| |] w1] eqn:Hs;
        intros [= <- <-]; cbn; try discriminate;
        apply save_recording_flags in Hs as (_ & -> & _); cbn; auto.
  - rewrite process_frame_silence_idle by assumption.
    intros [= <- <-]. cbn. congruence.
Qed.

Lemma while_True_flag_invariant cfg reads : forall w r w',
  flag_invariant (self w) ->
  while_True cfg reads w = (r, w') ->
  flag_invariant (self w').
Proof.
  induction reads as [|[frame vad now | e now] rest IH]; intros w r w' Hinv.
  - intros [= <- <-]. exact Hinv.
  - cbn [while_True]. cbv [mbind M_bind bind set_clock].
    destruct (process_frame cfg frame vad _) as [[[]| |] w1] eqn:Hp.
    + apply IH. eapply process_frame_flag_invariant; [|exact Hp]. exact Hinv.
    + intros [= <- <-]. eapply process_frame_flag_invariant; [|exact Hp]. exact Hinv.
    + intros [= <- <-]. eapply process_frame_flag_invariant; [|exact Hp]. exact Hinv.
  - cbn [while_True]. cbv [mbind M_bind bind set_clock raise].
    intros [= <- <-]. exact Hinv.
Qed.

Lemma save_calls_app (a b : list Event) :
  save_calls (a ++ b) = save_calls a ++ save_calls b.
Proof.
  induction a as [|[] a IH]; cbn; rewrite ?IH; reflexivity.
Qed.

(** One call of [save_recording] adds exactly one entry to the calls. *)
Lemma save_recording_calls cfg w r w' :
  save_recording cfg w = (r, w') ->
  save_calls (trace w')
  = save_calls (trace w)
    ++ [(buffer (self w), silence_counter (self w))].
Proof.
  intros H. apply save_recording_frame in H as (_ & _ & _ & _ & _ & t & -> & Ht).
  rewrite save_calls_app. cbn. rewrite Ht. reflexivity.
Qed.

(** On an interrupt with a segment in progress the handler goes straight
    to [save_recording], whatever the silence counter is. *)
Lemma on_KeyboardInterrupt_saves cfg w :
  recording (self w) = true -> buffer (self w) <> [] ->
  speech_detected_in_recording (self w) = true ->
  on_KeyboardInterrupt cfg w
  = save_recording cfg
      (mkSys (self w) (fs w) (clock w) (trace w ++ [Print Stopped_by_user])).
Proof.
  intros Hr Hb Hs.
  cbv [on_KeyboardInterrupt mbind M_bind bind emit get_self].
  cbn [self fs clock trace]. rewrite Hr, Hs.
  destruct (buffer (self w)) as [|f b] eqn:E; [congruence|].
  reflexivity.
Qed.

(** C9.  In every state the loop reaches from a recorder that is not
    recording, the recorder is recording only with the speech flag set.
    Hence neither check of the flag ever holds a segment back: a silence
    frame that reaches the threshold in such a state, and an interrupt in
    such a state with a non-empty buffer, both call [save_recording] on
    the segment. *)
Theorem recording_implies_speech_detected (cfg : Config)
    (reads : list ReadResult) (w0 w1 : Sys) (r : Res unit) :
  recording (self w0) = false ->
  while_True cfg reads w0 = (r, w1) ->
  (recording (self w1) = true ->
   speech_detected_in_recording (self w1) = true)
  /\ (forall frame vad,
        recording (self w1) = true -> verdict vad = false ->
        silence_threshold (self w1) <= silence_counter (self w1) + 1 ->
        save_calls (trace (snd (process_frame cfg frame vad w1)))
        = save_calls (trace w1)
          ++ [(buffer (self w1) ++ [frame], silence_counter (self w1) + 1)])
  /\ (recording (self w1) = true -> buffer (self w1) <> [] ->
      save_calls (trace (snd (on_KeyboardInterrupt cfg w1)))
      = save_calls (trace w1)
        ++ [(buffer (self w1), silence_counter (self w1))]).
Proof.
  intros H0 Hrun.
  assert (Hinv : flag_invariant (self w1)).
  { eapply while_True_flag_invariant; [|exact Hrun].
    unfold flag_invariant. congruence. }
  split; [exact Hinv|]. split.
  - intros frame vad Hr Hv Hc.
    rewrite process_frame_silence_close by assumption.
    rewrite (Hinv Hr).
    destruct (save_recording cfg _) as [[[]| |] w2] eqn:Hs; cbn [snd trace];
      apply save_recording_calls in Hs; exact Hs.
  - intros Hr Hb.
    rewrite on_KeyboardInterrupt_saves by auto.
    destruct (save_recording cfg _) as [r2 w2] eqn:Hs. cbn [snd].
    apply save_recording_calls in Hs. rewrite Hs. cbn [self trace].
    rewrite save_calls_app. cbn. rewrite app_nil_r. reflexivity.
Qed.

Lemma recording_implies_speech_detected_witness :
  recording (self (loop_state_after (speech_reads 1 7 ++ silence_reads 8 99)))
  = true
  /\ speech_detected_in_recording
       (self (loop_state_after (speech_reads 1 7 ++ silence_reads 8 99)))
     = true.
Proof.
  split; [vm_compute; reflexivity|].
  refine (proj1 (recording_implies_speech_detected config
            (speech_reads 1 7 ++ silence_reads 8 99) fresh_sys
            (loop_state_after (speech_reads 1 7 ++ silence_reads 8 99))
            Blocked _ _) _); vm_compute; reflexivity.
Defined.

(** ** Below the onset threshold *)

Lemma speech_runs_lower_bound vs : forall cur best,
  cur <= speech_runs cur best vs /\ best <= speech_runs cur best vs.
Proof.
  induction vs as [|[] vs IH]; intros cur best; cbn [speech_runs].
  - lia.
  - destruct (IH (cur + 1) best). lia.
  - destruct (IH 0 (Z.max cur best)). lia.
Qed.

(** Below the onset threshold the loop changes nothing but the counter,
    the pre-buffer, the speech flag and the clock. *)
Lemma while_True_below_threshold cfg reads : forall w best r w',
  recording (self w) = false ->
  speech_runs (speech_frame_counter (self w)) best (verdicts reads)
  < MINIMUM_CONSECUTIVE_SPEECH_FRAMES cfg ->
  while_True cfg reads w = (r, w') ->
  r <> Ret tt /\ recording (self w') = false
  /\ buffer (self w') = buffer (self w)
  /\ fs w' = fs w /\ trace w' = trace w.
Proof.
  induction reads as [|[frame vad now | e now] rest IH];
    intros w best r w' Hr Hrun; cbn [while_True verdicts speech_runs] in *.
  - intros [= <- <-]. repeat split; auto; discriminate.
  - cbv [mbind M_bind bind set_clock].
    set (w1 := mkSys (self w) (fs w) now (trace w)).
    destruct (verdict vad) eqn:Hv.
    + pose proof (speech_runs_lower_bound (verdicts rest)
                    (speech_frame_counter (self w) + 1) best) as [Hlo _].
      rewrite (process_frame_speech_arming cfg frame vad w1) by (cbn; auto; lia).
      intros Hw. eapply IH in Hw; cbn; eauto.
    + rewrite (process_frame_silence_idle cfg frame vad w1) by (cbn; auto).
      intros Hw. eapply IH in Hw; cbn; eauto.
  - cbv [mbind M_bind bind set_clock raise]. intros [= <- <-].
    repeat split; auto; discriminate.
Qed.

(** C5.  When the verdicts contain no run of at least
    [MINIMUM_CONSECUTIVE_SPEECH_FRAMES] consecutive speech frames, a run
    of [record] that starts not recording never confirms an onset and
    never produces a segment: however it ends, the recorder is not
    recording, the disk is untouched, and nothing it printed or called
    belongs to a segment. *)
Theorem no_speech_run_no_segment (cfg : Config) (devices : list string)
    (reads : list ReadResult) (w w' : Sys) (r : Res unit) :
  recording (self w) = false ->
  longest_speech_run (verdicts reads) < MINIMUM_CONSECUTIVE_SPEECH_FRAMES cfg ->
  record cfg devices reads w = (r, w') ->
  recording (self w') = false
  /\ buffer (self w') = buffer (self w)
  /\ fs w' = fs w
  /\ exists added,
       trace w' = trace w ++ added
       /\ forallb (fun e => negb (segment_event e)) added = true.
Proof.
  intros Hr Hrun. unfold record.
  destruct (_get_blue_snowball_device_index devices 0) as [i|].
  2:{ cbv [mbind M_bind bind emit raise]. intros [= <- <-]. cbn.
      repeat split; auto. eexists. split; reflexivity. }
  cbv [mbind M_bind bind emit upd try_finally try_except_KeyboardInterrupt].
  cbn [self fs clock trace].
  match goal with
  | |- context [while_True cfg reads ?w1] =>
      destruct (while_True cfg reads w1) as [r1 w2] eqn:Hw;
      apply (while_True_below_threshold cfg reads w1 0) in Hw;
      [|exact Hr|exact Hrun]
  end.
  destruct Hw as (Hret & Hr2 & Hb2 & Hfs & Htr). cbn in Hb2, Hfs, Htr.
  destruct r1 as [[]|e|]; [congruence| |].
  - destruct e; cbv [release on_KeyboardInterrupt mbind M_bind bind emit raise ret
                     mret M_ret get_self];
      cbn [self fs clock trace]; rewrite ?Hr2; cbn [andb];
      cbv [ret]; cbn [self fs clock trace];
      intros [= <- <-]; cbn [self fs clock trace]; rewrite Htr;
      (repeat split; auto); rewrite <- ?app_assoc;
      (eexists; split; [reflexivity|reflexivity]).
  - intros [= <- <-]. rewrite Htr. repeat split; auto.
    rewrite <- ?app_assoc. eexists; split; reflexivity.
Qed.

Lemma no_speech_run_no_segment_witness :
  longest_speech_run
    (verdicts (speech_reads 1 6 ++ silence_reads 7 1 ++ speech_reads 8 6
               ++ [Read_raises KeyboardInterrupt "20240101_120009"%string]))
  = 6
  /\ fs (state_after (speech_reads 1 6 ++ silence_reads 7 1 ++ speech_reads 8 6
               ++ [Read_raises KeyboardInterrupt "20240101_120009"%string]))
     = backup_disk.
Proof.
  split; [vm_compute; reflexivity|].
  refine (proj1 (proj2 (proj2 (no_speech_run_no_segment config two_devices
            (speech_reads 1 6 ++ silence_reads 7 1 ++ speech_reads 8 6
               ++ [Read_raises KeyboardInterrupt "20240101_120009"%string])
            fresh_sys
            (state_after (speech_reads 1 6 ++ silence_reads 7 1 ++ speech_reads 8 6
               ++ [Read_raises KeyboardInterrupt "20240101_120009"%string]))
            (Ret tt) _ _ _)))); vm_compute; reflexivity.
Defined.

(** ** Closing a segment *)

Lemma process_frame_close_resets cfg frame vad w :
  verdict vad = false -> recording (self w) = true ->
  silence_threshold (self w) <= silence_counter (self w) + 1 ->
  Forall pcm16_frame (buffer (self w) ++ [frame]) ->
  exists w',
    process_frame cfg frame vad w = (Ret tt, w')
    /\ recording (self w') = false
    /\ buffer (self w') = []
    /\ silence_counter (self w') = 0
    /\ speech_frame_counter (self w') = 0
    /\ speech_detected_in_recording (self w') = false
    /\ speech_pre_buffer (self w') = speech_pre_buffer (self w)
    /\ save_calls (trace w')
       = save_calls (trace w)
         ++ (if speech_detected_in_recording (self w)
             then [(buffer (self w) ++ [frame], silence_counter (self w) + 1)]
             else []).
Proof.
  intros Hv Hr Hc Hf.
  rewrite process_frame_silence_close by assumption.
  destruct (speech_detected_in_recording (self w)).
  - destruct (save_recording_returns cfg
                (mkSys (at_close frame (self w)) (fs w) (clock w) (trace w)) Hf)
      as [w1 Hs].
    rewrite Hs. eexists. split; [reflexivity|]. cbn.
    pose proof (save_recording_flags _ _ _ _ Hs) as (_ & _ & -> & -> & _).
    apply save_recording_calls in Hs. rewrite Hs. cbn. auto 10.
  - eexists. split; [reflexivity|]. cbn. rewrite app_nil_r. auto 10.
Qed.

(** ** Arming *)

Lemma while_True_arming cfg rest xs : forall w,
  recording (self w) = false ->
  speech_frame_counter (self w) + len xs
  < MINIMUM_CONSECUTIVE_SPEECH_FRAMES cfg ->
  exists w1,
    while_True cfg (speech_of xs ++ rest) w = while_True cfg rest w1
    /\ recording (self w1) = false
    /\ speech_frame_counter (self w1) = speech_frame_counter (self w) + len xs
    /\ speech_pre_buffer (self w1) = speech_pre_buffer (self w) ++ map fst xs
    /\ buffer (self w1) = buffer (self w)
    /\ fs w1 = fs w /\ trace w1 = trace w
    /\ silence_threshold (self w1) = silence_threshold (self w).
Proof.
  unfold len. induction xs as [|x xs IH]; intros w Hr Hc.
  - exists w. cbn. rewrite app_nil_r, Z.add_0_r. auto 10.
  - cbn [speech_of map app while_True]. cbv [mbind M_bind bind set_clock].
    cbn [length] in Hc.
    rewrite process_frame_speech_arming by (cbn; auto; lia).
    cbn [self fs clock trace].
    match goal with |- context [while_True _ _ ?w1] =>
      destruct (IH w1) as (w2 & Heq & H1 & H2 & H3 & H4 & H5 & H6 & H7);
        [exact Hr | cbn; lia |]
    end.
    exists w2. split; [exact Heq|]. cbn in *.
    rewrite H2, H3, <- app_assoc. repeat split; auto. lia.
Qed.

(** A run of exactly [MINIMUM_CONSECUTIVE_SPEECH_FRAMES] speech frames
    read while not recording, the counter at zero: the recorder starts
    recording, and the new buffer is what the pre-buffer held before the
    run, then the run, then the last frame of the run once more. *)
Lemma while_True_onset cfg xs x : forall w,
  recording (self w) = false -> speech_frame_counter (self w) = 0 ->
  len xs + 1 = MINIMUM_CONSECUTIVE_SPEECH_FRAMES cfg ->
  exists w',
    while_True cfg (speech_of (xs ++ [x])) w = (Blocked, w')
    /\ recording (self w') = true
    /\ speech_pre_buffer (self w') = []
    /\ buffer (self w')
       = speech_pre_buffer (self w) ++ map fst xs ++ [fst x; fst x]
    /\ silence_counter (self w') = 0
    /\ silence_threshold (self w') = silence_threshold (self w)
    /\ fs w' = fs w
    /\ trace w' = trace w ++ [Print Speech_confirmed].
Proof.
  intros w Hr H0 Hm. unfold speech_of. rewrite map_app. fold (speech_of xs).
  destruct (while_True_arming cfg
              [Read_frame (fst x) (Vad_returns true) (snd x)] xs w Hr)
    as (w1 & Heq & H1 & H2 & H3 & _ & H5 & H6 & H7); [lia|].
  cbn [map]. rewrite Heq. cbn [while_True].
  cbv [mbind M_bind bind set_clock blocked].
  rewrite process_frame_speech_onset by (cbn; auto; lia).
  eexists. split; [reflexivity|]. cbn. rewrite H3, H5, H6, H7, <- !app_assoc.
  auto 10.
Qed.

(** C2 (as amended).  A silence frame that brings the silence counter to
    the threshold while recording closes the segment: [save_recording] is
    called on it exactly when the speech flag is set, and the recorder is
    left not recording, with an empty buffer, both counters at 0 and the
    speech flag cleared.  The pre-buffer is not emptied: it is left as it
    was. *)
Theorem silence_threshold_closes_segment (cfg : Config) (frame : Frame)
    (vad : VadResult) (w : Sys) :
  verdict vad = false -> recording (self w) = true ->
  silence_threshold (self w) <= silence_counter (self w) + 1 ->
  Forall pcm16_frame (buffer (self w) ++ [frame]) ->
  exists w',
    process_frame cfg frame vad w = (Ret tt, w')
    /\ recording (self w') = false
    /\ buffer (self w') = []
    /\ silence_counter (self w') = 0
    /\ speech_frame_counter (self w') = 0
    /\ speech_detected_in_recording (self w') = false
    /\ speech_pre_buffer (self w') = speech_pre_buffer (self w)
    /\ save_calls (trace w')
       = save_calls (trace w)
         ++ (if speech_detected_in_recording (self w)
             then [(buffer (self w) ++ [frame], silence_counter (self w) + 1)]
             else []).
Proof. apply process_frame_close_resets. Qed.

(** After eight speech frames and 99 silence frames the next silence
    frame closes the segment, and the pre-buffer still holds the eighth
    speech frame afterwards. *)
Lemma close_leaves_pre_buffer :
  let w := loop_state_after (speech_reads 1 8 ++ silence_reads 9 99) in
  let w' := snd (process_frame config (sample_frame 108) (Vad_returns false) w) in
  recording (self w) = true
  /\ silence_threshold (self w) <= silence_counter (self w) + 1
  /\ recording (self w') = false
  /\ speech_pre_buffer (self w') = [sample_frame 8]
  /\ speech_pre_buffer (self w') <> [].
Proof. vm_compute. repeat split; congruence. Qed.

Lemma silence_threshold_closes_segment_witness :
  exists w',
    process_frame config (sample_frame 108) (Vad_returns false)
      (loop_state_after (speech_reads 1 8 ++ silence_reads 9 99))
    = (Ret tt, w')
    /\ recording (self w') = false
    /\ buffer (self w') = []
    /\ silence_counter (self w') = 0
    /\ speech_frame_counter (self w') = 0
    /\ speech_detected_in_recording (self w') = false
    /\ speech_pre_buffer (self w')
       = speech_pre_buffer
           (self (loop_state_after (speech_reads 1 8 ++ silence_reads 9 99)))
    /\ save_calls (trace w')
       = save_calls (trace (loop_state_after (speech_reads 1 8 ++ silence_reads 9 99)))
         ++ (if speech_detected_in_recording
                  (self (loop_state_after (speech_reads 1 8 ++ silence_reads 9 99)))
             then [(buffer (self (loop_state_after (speech_reads 1 8 ++ silence_reads 9 99)))
                    ++ [sample_frame 108],
                    silence_counter (self (loop_state_after (speech_reads 1 8 ++ silence_reads 9 99))) + 1)]
             else []).
Proof.
  apply (silence_threshold_closes_segment config (sample_frame 108)
           (Vad_returns false)
           (loop_state_after (speech_reads 1 8 ++ silence_reads 9 99)));
    [reflexivity | vm_compute; reflexivity | vm_compute; discriminate |].
  vm_compute. repeat constructor.
Defined.

(** A stretch of a session: while the silence runs stay below the
    threshold the recorder keeps recording, the pre-buffer collects the
    speech frames and the buffer all frames, and nothing is saved. *)
Lemma while_True_session cfg body : forall w best,
  recording (self w) = true ->
  only_frames body ->
  silence_runs (silence_counter (self w)) best (verdicts body)
  < silence_threshold (self w) ->
  exists w1,
    while_True cfg body w = (Blocked, w1)
    /\ recording (self w1) = true
    /\ silence_counter (self w1)
       = silence_tail (silence_counter (self w)) (verdicts body)
    /\ speech_pre_buffer (self w1)
       = speech_pre_buffer (self w) ++ speech_frames body
    /\ buffer (self w1) = buffer (self w) ++ frames_read body
    /\ silence_threshold (self w1) = silence_threshold (self w)
    /\ fs w1 = fs w /\ trace w1 = trace w.
Proof.
  unfold only_frames.
  induction body as [|[frame vad now | e now] rest IH];
    intros w best Hr Hof Hrun;
    cbn [while_True verdicts silence_runs silence_tail frames_read
         speech_frames] in *.
  - exists w. rewrite !app_nil_r. auto 10.
  - apply Forall_cons in Hof as [_ Hof].
    cbv [mbind M_bind bind set_clock].
    set (w0 := mkSys (self w) (fs w) now (trace w)).
    destruct (verdict vad) eqn:Hv.
    + rewrite (process_frame_speech_recording cfg frame vad w0) by (cbn; auto).
      match goal with |- context [while_True _ _ ?w2] =>
        destruct (IH w2 (Z.max (silence_counter (self w)) best))
          as (w1 & -> & H1 & H2 & H3 & H4 & H5 & H6 & H7);
          [exact Hr | exact Hof | exact Hrun |]
      end.
      cbn in H2, H3, H4, H5, H6, H7.
      exists w1. rewrite H3, H4, <- !app_assoc. auto 10.
    + pose proof (silence_runs_lower_bound (verdicts rest)
                    (silence_counter (self w) + 1) best) as [Hlo _].
      rewrite (process_frame_silence_recording cfg frame vad w0)
        by (cbn; auto; lia).
      match goal with |- context [while_True _ _ ?w2] =>
        destruct (IH w2 best)
          as (w1 & -> & H1 & H2 & H3 & H4 & H5 & H6 & H7);
          [exact Hr | exact Hof | exact Hrun |]
      end.
      cbn in H2, H3, H4, H5, H6, H7.
      exists w1. rewrite H4, <- !app_assoc. auto 10.
  - apply Forall_cons in Hof as [[] _].
Qed.

Lemma only_frames_pcm16 body :
  only_frames body -> Forall pcm16_frame (frames_read body).
Proof.
  unfold only_frames.
  induction body as [|[frame vad now | e now] rest IH]; intros H;
    cbn [frames_read].
  - constructor.
  - apply Forall_cons in H as [H1 H2]. constructor; auto.
  - constructor.
Qed.

(** A whole session and the close that ends it: after an onset from a
    recorder that was not recording, frames that do not close the segment
    and the silence frame that does, the recorder is not recording and
    the pre-buffer holds the speech frames read after the onset frame. *)
Lemma while_True_closed_session cfg xs x body frame vad now : forall w,
  recording (self w) = false -> speech_frame_counter (self w) = 0 ->
  len xs + 1 = MINIMUM_CONSECUTIVE_SPEECH_FRAMES cfg ->
  only_frames body ->
  silence_runs 0 0 (verdicts body) < silence_threshold (self w) ->
  verdict vad = false ->
  silence_threshold (self w) <= silence_tail 0 (verdicts body) + 1 ->
  Forall pcm16_frame
    (speech_pre_buffer (self w) ++ map fst xs ++ [fst x; frame]) ->
  exists w',
    while_True cfg
      (speech_of (xs ++ [x]) ++ body ++ [Read_frame frame vad now]) w
    = (Blocked, w')
    /\ recording (self w') = false
    /\ speech_frame_counter (self w') = 0
    /\ buffer (self w') = []
    /\ speech_pre_buffer (self w') = speech_frames body.
Proof.
  intros w Hr H0 Hm Hof Hrun Hv Hclose Hpcm.
  rewrite while_True_append.
  destruct (while_True_onset cfg xs x w Hr H0 Hm)
    as (w1 & -> & H1 & H2 & H3 & H4 & H5 & H6 & H7).
  rewrite while_True_append.
  destruct (while_True_session cfg body w1 0 H1 Hof)
    as (w2 & -> & G1 & G2 & G3 & G4 & G5 & G6 & G7);
    [rewrite H4, H5; exact Hrun|].
  cbn [while_True]. cbv [mbind M_bind bind set_clock blocked].
  match goal with |- context [process_frame _ _ _ ?w0] =>
    destruct (process_frame_close_resets cfg frame vad w0 Hv G1)
      as (w3 & -> & K1 & K2 & _ & K4 & _ & K6 & _)
  end.
  - cbn [self]. rewrite G2, G5, H4, H5. exact Hclose.
  - cbn [self]. rewrite G4, H3, <- !app_assoc.
    apply Forall_app in Hpcm as [P1 Hpcm].
    apply Forall_app in Hpcm as [P2 Hpcm].
    apply Forall_cons in Hpcm as [P3 Hpcm].
    apply Forall_cons in Hpcm as [P4 _].
    rewrite !Forall_app.
    repeat split;
      first [ assumption
            | apply only_frames_pcm16; exact Hof
            | repeat constructor; assumption ].
  - exists w3. split; [reflexivity|]. cbn [self] in K6.
    rewrite K6, G3, H2. auto.
Qed.


(** C10 (as amended).  While recording, a speech frame is appended to the
    pre-buffer as well as to the buffer, and a silence frame leaves the
    pre-buffer as it is, also when it closes the segment.  Over one
    iteration the pre-buffer keeps what it held, except in two cases: a
    non-speech frame processed while not recording empties it, and the
    speech frame that confirms an onset moves its content to the new
    buffer.  So a closing frame followed at once by a run of
    [MINIMUM_CONSECUTIVE_SPEECH_FRAMES] speech frames starts a segment
    whose buffer begins with what the pre-buffer held at the close,
    followed by the new run; and over a whole session, from its onset to
    its close, what the pre-buffer holds at the close are the speech
    frames of the session read after its onset frame, so that these seed
    the buffer of the next segment. *)
Theorem pre_buffer_survives_close (cfg : Config) :
  (forall frame vad w,
     verdict vad = true -> recording (self w) = true ->
     exists w',
       process_frame cfg frame vad w = (Ret tt, w')
       /\ recording (self w') = true
       /\ speech_pre_buffer (self w') = speech_pre_buffer (self w) ++ [frame]
       /\ buffer (self w') = buffer (self w) ++ [frame])
  /\ (forall frame vad w r w',
        verdict vad = false -> recording (self w) = true ->
        process_frame cfg frame vad w = (r, w') ->
        speech_pre_buffer (self w') = speech_pre_buffer (self w))
  /\ (forall frame vad w r w',
        process_frame cfg frame vad w = (r, w') ->
        (exists t, speech_pre_buffer (self w') = speech_pre_buffer (self w) ++ t)
        \/ (verdict vad = false /\ recording (self w) = false
            /\ speech_pre_buffer (self w') = [])
        \/ (verdict vad = true /\ recording (self w) = false
            /\ recording (self w') = true
            /\ speech_pre_buffer (self w') = []
            /\ buffer (self w')
               = (speech_pre_buffer (self w) ++ [frame]) ++ [frame]))
  /\ (forall frame vad now xs x w,
        verdict vad = false -> recording (self w) = true ->
        silence_threshold (self w) <= silence_counter (self w) + 1 ->
        Forall pcm16_frame (buffer (self w) ++ [frame]) ->
        len xs + 1 = MINIMUM_CONSECUTIVE_SPEECH_FRAMES cfg ->
        exists w',
          while_True cfg (Read_frame frame vad now :: speech_of (xs ++ [x])) w
          = (Blocked, w')
          /\ recording (self w') = true
          /\ buffer (self w')
             = speech_pre_buffer (self w) ++ map fst xs ++ [fst x; fst x])
  /\ (forall xs x body frame vad now ys y w,
        recording (self w) = false -> speech_frame_counter (self w) = 0 ->
        len xs + 1 = MINIMUM_CONSECUTIVE_SPEECH_FRAMES cfg ->
        only_frames body ->
        silence_runs 0 0 (verdicts body) < silence_threshold (self w) ->
        verdict vad = false ->
        silence_threshold (self w) <= silence_tail 0 (verdicts body) + 1 ->
        Forall pcm16_frame
          (speech_pre_buffer (self w) ++ map fst xs ++ [fst x; frame]) ->
        len ys + 1 = MINIMUM_CONSECUTIVE_SPEECH_FRAMES cfg ->
        exists w',
          while_True cfg
            ((speech_of (xs ++ [x]) ++ body ++ [Read_frame frame vad now])
             ++ speech_of (ys ++ [y])) w
          = (Blocked, w')
          /\ recording (self w') = true
          /\ buffer (self w')
             = speech_frames body ++ map fst ys ++ [fst y; fst y]).
Proof.
  assert (Hsil : forall frame vad w r w',
            verdict vad = false -> recording (self w) = true ->
            process_frame cfg frame vad w = (r, w') ->
            speech_pre_buffer (self w') = speech_pre_buffer (self w)).
  { intros frame vad w r w' Hv Hr.
    destruct (Z_lt_le_dec (silence_counter (self w) + 1)
                (silence_threshold (self w))).
    - rewrite process_frame_silence_recording by assumption.
      intros [= <- <-]. reflexivity.
    - rewrite process_frame_silence_close by assumption.
      destruct (speech_detected_in_recording (self w)).
      + destruct (save_recording cfg _) as [[[]| |] w1] eqn:Hs;
          intros [= <- <-]; cbn;
          apply save_recording_flags in Hs as (_ & _ & -> & _); reflexivity.
      + intros [= <- <-]. reflexivity. }
  split; [|split; [exact Hsil|split; [|split]]].
  - intros frame vad w Hv Hr.
    rewrite process_frame_speech_recording by assumption.
    eexists. split; [reflexivity|]. cbn. auto.
  - intros frame vad w r w'.
    destruct (verdict vad) eqn:Hv, (recording (self w)) eqn:Hr.
    + rewrite process_frame_speech_recording by assumption.
      intros [= <- <-]. left. eexists. reflexivity.
    + destruct (Z_lt_le_dec (speech_frame_counter (self w) + 1)
                  (MINIMUM_CONSECUTIVE_SPEECH_FRAMES cfg)).
      * rewrite process_frame_speech_arming by assumption.
        intros [= <- <-]. left. eexists. reflexivity.
      * rewrite process_frame_speech_onset by assumption.
        intros [= <- <-]. right. right. cbn. auto.
    + intros Hp. left. exists []. rewrite app_nil_r. eapply Hsil; eauto.
    + rewrite process_frame_silence_idle by assumption.
      intros [= <- <-]. right. left. cbn. auto.
  - intros frame vad now xs x w Hv Hr Hc Hf Hm.
    cbn [while_True]. cbv [mbind M_bind bind set_clock].
    destruct (process_frame_close_resets cfg frame vad
                (mkSys (self w) (fs w) now (trace w)) Hv Hr Hc Hf)
      as (w1 & -> & H1 & _ & _ & H4 & _ & H6 & _).
    destruct (while_True_onset cfg xs x w1 H1 H4 Hm)
      as (w2 & -> & H7 & _ & H9 & _).
    exists w2. rewrite H9, H6. auto.
  - intros xs x body frame vad now ys y w Hr H0 Hm Hof Hrun Hv Hclose Hpcm Hm'.
    rewrite while_True_append.
    destruct (while_True_closed_session cfg xs x body frame vad now w
                Hr H0 Hm Hof Hrun Hv Hclose Hpcm)
      as (w1 & -> & K1 & K2 & _ & K4).
    destruct (while_True_onset cfg ys y w1 K1 K2 Hm')
      as (w2 & -> & H7 & _ & H9 & _).
    exists w2. rewrite H9, K4. auto.
Qed.


(** The seventh speech frame of the scenario is read while the recorder
    is not recording and holds six frames in its pre-buffer; it confirms
    the onset, and the pre-buffer is empty afterwards: a speech frame has
    cleared it. *)
Lemma onset_empties_pre_buffer :
  let w := loop_state_after (speech_reads 1 6) in
  let w' := snd (process_frame config (sample_frame 7) (Vad_returns true) w) in
  recording (self w) = false
  /\ speech_pre_buffer (self w) = map sample_frame (seq 1 6)
  /\ verdict (Vad_returns true) = true
  /\ recording (self w') = true
  /\ speech_pre_buffer (self w') = []
  /\ speech_pre_buffer (self w') <> speech_pre_buffer (self w).
Proof. vm_compute. repeat split. intros H. discriminate H. Qed.

Lemma pre_buffer_survives_close_witness :
  exists w',
    while_True config
      ((speech_of (map (fun n => (sample_frame n, "20240101_120000"%string))
                     (seq 1 6)
                   ++ [(sample_frame 7, "20240101_120000"%string)])
        ++ (Read_frame (sample_frame 8) (Vad_returns true)
              "20240101_120000"%string
            :: silence_reads 9 99)
        ++ [Read_frame (sample_frame 108) (Vad_returns false)
              "20240101_120003"%string])
       ++ speech_of (map (fun n => (sample_frame n, "20240101_120004"%string))
                       (seq 109 6)
                     ++ [(sample_frame 115, "20240101_120004"%string)]))
      fresh_sys
    = (Blocked, w')
    /\ recording (self w') = true
    /\ buffer (self w')
       = map sample_frame [8; 109; 110; 111; 112; 113; 114; 115; 115]%nat.
Proof.
  apply (proj2 (proj2 (proj2 (proj2 (pre_buffer_survives_close config))))
           (map (fun n => (sample_frame n, "20240101_120000"%string)) (seq 1 6))
           (sample_frame 7, "20240101_120000"%string)
           (Read_frame (sample_frame 8) (Vad_returns true)
              "20240101_120000"%string
            :: silence_reads 9 99)
           (sample_frame 108) (Vad_returns false) "20240101_120003"%string
           (map (fun n => (sample_frame n, "20240101_120004"%string)) (seq 109 6))
           (sample_frame 115, "20240101_120004"%string)
           fresh_sys);
    first [ vm_compute; reflexivity
          | vm_compute; intros H; discriminate H
          | vm_compute; repeat constructor ].
Defined.

(** ** The first segment of the scenario *)

(** C1, evaluated.  With the settings of [config.py], seven speech frames
    followed by 100 silence frames lead to one call of [save_recording];
    the segment it is called on has 108 frames, not 107: the seventh
    speech frame, on which the onset is confirmed, is in the buffer twice,
    once through the copy of the pre-buffer and once through the append
    that every frame gets while recording. *)
Theorem onset_frame_is_stored_twice :
  save_calls
    (trace (state_after (speech_reads 1 7 ++ silence_reads 8 100)))
  = [(map sample_frame (seq 1 7) ++ [sample_frame 7]
      ++ map sample_frame (seq 8 100), 100)]
  /\ len (map sample_frame (seq 1 7) ++ [sample_frame 7]
          ++ map sample_frame (seq 8 100)) = 108.
Proof. split; vm_compute; reflexivity. Qed.

(** ** Writing a segment *)

Lemma _write_audio_file_eq cfg audio_data filepath w :
  _write_audio_file cfg audio_data filepath w
  = match open_check (open_mode_of cfg) filepath (fs w) with
    | Some e =>
        (Raise e,
         mkSys (self w) (fs w) (clock w)
           (trace w ++ [Call_write_audio_file filepath]))
    | None =>
        (Ret tt,
         mkSys (self w)
           (store_file filepath (audio_file_of cfg (self w) audio_data) (fs w))
           (clock w) (trace w ++ [Call_write_audio_file filepath]))
    end.
Proof.
  unfold open_mode_of, audio_file_of. run_py.
  destruct (String.eqb _ _); cbn [self fs clock trace];
    destruct (open_check _ _ _); reflexivity.
Qed.

Section SaveRecording.
Variables (cfg : Config) (w : Sys).
Local Abbreviation trimmed := (trim_trailing_silence (self w)).
Local Abbreviation audio_data := (bytes_join (buffer trimmed)).
Local Abbreviation primary :=
  (PyStr.path_join (network_path (self w)) (output_filename cfg (clock w))).
Local Abbreviation fallback :=
  (PyStr.path_join (backup_path (self w)) (output_filename cfg (clock w))).
Local Abbreviation file := (audio_file_of cfg (self w) audio_data).
Local Abbreviation entry :=
  (Call_save_recording (buffer (self w)) (silence_counter (self w))).

Lemma save_recording_outcome :
  1 < len (buffer (self w)) -> Forall pcm16_frame (buffer (self w)) ->
  exists w',
    save_recording cfg w = (Ret tt, w')
    /\ dirs (fs w') = dirs (fs w)
    /\ (path_exists (network_path (self w)) (fs w) = false ->
        fallback_outcome cfg w [entry] w')
    /\ (path_exists (network_path (self w)) (fs w) = true ->
        match open_check (open_mode_of cfg) primary (fs w) with
        | None =>
            files (fs w') = <[primary := file]> (files (fs w))
            /\ trace w'
               = trace w ++ [entry; Call_write_audio_file primary;
                             Print (Saved_network primary)]
        | Some _ =>
            fallback_outcome cfg w [entry; Call_write_audio_file primary] w'
        end).
Proof.
  intros Hlen Hb.
  apply (trim_trailing_silence_Forall pcm16_frame) in Hb.
  apply bytes_join_even in Hb.
  unfold fallback_outcome, save_recording.
  cbv [mbind mret M_bind M_ret bind ret raise get_self upd get_fs
       datetime_now emit np_frombuffer_int16 try_except_Exception].
  cbn [self fs clock trace].
  destruct (Z.leb_spec (len (buffer (self w))) 1) as [|_]; [lia|].
  cbn [self fs clock trace]. rewrite Hb. cbn [self fs clock trace].
  fold (output_filename cfg (clock w)).
  assert (Hsr : forall d, audio_file_of cfg trimmed d
                           = audio_file_of cfg (self w) d).
  { intros d. unfold audio_file_of, trim_trailing_silence.
    destruct (_ >? _); reflexivity. }
  assert (Hnp : network_path trimmed = network_path (self w)).
  { unfold trim_trailing_silence. destruct (_ >? _); reflexivity. }
  assert (Hbp : backup_path trimmed = backup_path (self w)).
  { unfold trim_trailing_silence. destruct (_ >? _); reflexivity. }
  rewrite Hnp, Hbp.
  destruct (path_exists (network_path (self w)) (fs w)) eqn:Hex;
    cbn [negb self fs clock trace].
  - rewrite _write_audio_file_eq. cbn [self fs clock trace].
    rewrite Hsr.
    destruct (open_check (open_mode_of cfg) primary (fs w)) as [e|] eqn:Ho.
    + rewrite (open_check_is_Exception _ _ _ _ Ho).
      rewrite _write_audio_file_eq. cbn [self fs clock trace]. rewrite Hsr.
      destruct (open_check (open_mode_of cfg) fallback (fs w)) as [e2|] eqn:Ho2.
      * rewrite (open_check_is_Exception _ _ _ _ Ho2).
        eexists. split; [reflexivity|]. cbn [self fs clock trace].
        rewrite <- !app_assoc. cbn.
        repeat split; intros; (discriminate || auto).
      * eexists. split; [reflexivity|]. cbn [self fs clock trace].
        rewrite <- !app_assoc. cbn.
        repeat split; intros; (discriminate || auto).
    + eexists. split; [reflexivity|]. cbn [self fs clock trace].
      rewrite <- !app_assoc. cbn.
        repeat split; intros; (discriminate || auto).
  - cbn [is_Exception]. rewrite _write_audio_file_eq.
    cbn [self fs clock trace]. rewrite Hsr.
    destruct (open_check (open_mode_of cfg) fallback (fs w)) as [e2|] eqn:Ho2.
    + rewrite (open_check_is_Exception _ _ _ _ Ho2).
      eexists. split; [reflexivity|]. cbn [self fs clock trace].
      rewrite <- !app_assoc. cbn.
      repeat split; intros; (discriminate || auto).
    + eexists. split; [reflexivity|]. cbn [self fs clock trace].
      rewrite <- !app_assoc. cbn.
      repeat split; intros; (discriminate || auto).
Qed.

(** C4.  For a segment of more than one frame, [save_recording] returns
    normally whatever the two writes do.  It creates no directory.  When
    the network directory does not exist, it makes no write at the
    primary path and exactly one at the fallback path; when the directory
    exists, it writes at the primary path, and only a failure of that
    write is followed by one write at the fallback path.  A fallback write
    that succeeds leaves the file at the fallback path and every other
    path as it was; one that fails leaves the disk unchanged and the
    failure message printed. *)
Theorem save_recording_primary_then_fallback :
  1 < len (buffer (self w)) -> Forall pcm16_frame (buffer (self w)) ->
  exists w',
    save_recording cfg w = (Ret tt, w')
    /\ dirs (fs w') = dirs (fs w)
    /\ (path_exists (network_path (self w)) (fs w) = false ->
        fallback_outcome cfg w [entry] w')
    /\ (path_exists (network_path (self w)) (fs w) = true ->
        match open_check (open_mode_of cfg) primary (fs w) with
        | None =>
            files (fs w') = <[primary := file]> (files (fs w))
            /\ trace w'
               = trace w ++ [entry; Call_write_audio_file primary;
                             Print (Saved_network primary)]
        | Some _ =>
            fallback_outcome cfg w [entry; Call_write_audio_file primary] w'
        end).
Proof. exact save_recording_outcome. Qed.
End SaveRecording.

(** ** Interrupt and release *)

Lemma record_eq cfg devices reads w i :
  _get_blue_snowball_device_index devices 0 = Some i ->
  record cfg devices reads w
  = match while_True cfg reads (loop_entry i w) with
    | (Blocked, w1) => (Blocked, w1)
    | (Raise KeyboardInterrupt, w1) =>
        match on_KeyboardInterrupt cfg w1 with
        | (Ret _, w2) =>
            (Ret tt, mkSys (self w2) (fs w2) (clock w2) (trace w2 ++ released))
        | (Raise e, w2) =>
            (Raise e, mkSys (self w2) (fs w2) (clock w2) (trace w2 ++ released))
        | (Blocked, w2) => (Blocked, w2)
        end
    | (Raise e, w1) =>
        (Raise e, mkSys (self w1) (fs w1) (clock w1) (trace w1 ++ released))
    | (Ret _, w1) =>
        (Ret tt, mkSys (self w1) (fs w1) (clock w1) (trace w1 ++ released))
    end.
Proof.
  intros Hd. unfold record, loop_entry, released. rewrite Hd.
  cbv [mbind M_bind bind emit upd try_finally try_except_KeyboardInterrupt
       release ret raise].
  cbn [self fs clock trace]. rewrite <- !app_assoc. cbn [app].
  destruct (while_True cfg reads _) as [[[]|e|] w1]; cbn [self fs clock trace];
    rewrite <- ?app_assoc; cbn [app]; try reflexivity.
  destruct e; cbn [self fs clock trace]; rewrite <- ?app_assoc; cbn [app];
    try reflexivity.
  destruct (on_KeyboardInterrupt cfg w1) as [[[]|e|] w2];
    cbn [self fs clock trace]; rewrite <- ?app_assoc; reflexivity.
Qed.

Lemma on_KeyboardInterrupt_not_Blocked cfg w r w' :
  on_KeyboardInterrupt cfg w = (r, w') -> r <> Blocked.
Proof.
  cbv [on_KeyboardInterrupt mbind M_bind bind emit get_self mret M_ret ret].
  cbn [self fs clock trace].
  destruct (_ && _)%bool.
  - intros H. apply save_recording_frame in H. tauto.
  - intros [= <- <-]. discriminate.
Qed.

(** On a segment of more than one frame of 16-bit samples
    [save_recording] returns normally and leaves what the write policy
    describes. *)
Lemma save_recording_persists cfg w :
  1 < len (buffer (self w)) -> Forall pcm16_frame (buffer (self w)) ->
  exists w', save_recording cfg w = (Ret tt, w') /\ persist_outcome cfg w w'.
Proof.
  intros Hlen Hb.
  destruct (save_recording_outcome cfg w Hlen Hb) as (w' & Hs & Hrest).
  exists w'. split; [exact Hs|]. exact Hrest.
Qed.

(** One pass through the loop body on a frame of 16-bit samples returns
    normally and keeps the invariant of the segment. *)
Lemma process_frame_segment_invariant cfg frame vad w :
  pcm16_frame frame -> segment_invariant (self w) ->
  exists w',
    process_frame cfg frame vad w = (Ret tt, w')
    /\ segment_invariant (self w').
Proof.
  intros Hf [Hp Hb]. unfold segment_invariant.
  assert (Hpf : Forall pcm16_frame (speech_pre_buffer (self w) ++ [frame])).
  { apply Forall_app. split; [exact Hp|]. repeat constructor. exact Hf. }
  destruct (verdict vad) eqn:Hv, (recording (self w)) eqn:Hr.
  - destruct (Hb eq_refl) as [Hb1 Hb2].
    rewrite process_frame_speech_recording by assumption.
    eexists. split; [reflexivity|]. cbn. split; [exact Hpf|]. intros _.
    split.
    + apply Forall_app. split; [exact Hb1|]. repeat constructor. exact Hf.
    + rewrite len_app. unfold len in *. cbn. lia.
  - destruct (Z_lt_le_dec (speech_frame_counter (self w) + 1)
                (MINIMUM_CONSECUTIVE_SPEECH_FRAMES cfg)).
    + rewrite process_frame_speech_arming by assumption.
      eexists. split; [reflexivity|]. cbn. split; [exact Hpf|].
      rewrite Hr. discriminate.
    + rewrite process_frame_speech_onset by assumption.
      eexists. split; [reflexivity|]. cbn. split; [constructor|]. intros _.
      split.
      * apply Forall_app. split; [exact Hpf|]. repeat constructor. exact Hf.
      * rewrite !len_app. unfold len. cbn. lia.
  - destruct (Hb eq_refl) as [Hb1 Hb2].
    assert (Hbf : Forall pcm16_frame (buffer (self w) ++ [frame])).
    { apply Forall_app. split; [exact Hb1|]. repeat constructor. exact Hf. }
    destruct (Z_lt_le_dec (silence_counter (self w) + 1)
                (silence_threshold (self w))).
    + rewrite process_frame_silence_recording by assumption.
      eexists. split; [reflexivity|]. cbn. split; [exact Hp|]. intros _.
      split; [exact Hbf|]. rewrite len_app. unfold len in *. cbn. lia.
    + destruct (process_frame_close_resets cfg frame vad w Hv Hr l Hbf)
        as (w' & -> & Hr' & _ & _ & _ & _ & Hp' & _).
      exists w'. split; [reflexivity|]. rewrite Hp', Hr'.
      split; [exact Hp | discriminate].
  - rewrite process_frame_silence_idle by assumption.
    eexists. split; [reflexivity|]. cbn. split; [constructor|].
    rewrite Hr. discriminate.
Qed.

Lemma while_True_segment_invariant cfg reads : forall w r w1,
  segment_invariant (self w) ->
  Forall pcm16_frame (frames_read reads) ->
  while_True cfg reads w = (r, w1) ->
  segment_invariant (self w1).
Proof.
  induction reads as [|[frame vad now | e now] rest IH]; intros w r w1 Hi Hf.
  - intros [= <- <-]. exact Hi.
  - cbn [frames_read] in Hf. apply Forall_cons in Hf as [Hf1 Hf2].
    cbn [while_True]. cbv [mbind M_bind bind set_clock].
    match goal with |- context [process_frame _ _ _ ?w0] =>
      destruct (process_frame_segment_invariant cfg frame vad w0 Hf1 Hi)
        as (w2 & -> & Hi2)
    end.
    apply IH; assumption.
  - cbn [while_True]. cbv [mbind M_bind bind set_clock raise].
    intros [= <- <-]. exact Hi.
Qed.


(** C8.  However [record] leaves its loop, the last things it does are
    to stop and close the stream and to terminate the audio library.  When
    the loop is interrupted while a segment with speech is in progress,
    the handler calls [save_recording] on that segment at once, whatever
    the silence counter is, and the release follows whether that call
    returns or raises.  In a run that started from a recorder that was not
    recording, on frames of 16-bit samples, such a segment has more than
    one frame, and the call persists it before the release: the segment,
    trimmed, is written at the primary path, or at the fallback path when
    the network directory is missing or the primary write is refused;
    only when both writes are refused is the disk left as it was and the
    failure printed. *)
Theorem interrupt_saves_then_releases (cfg : Config) (devices : list string)
    (reads : list ReadResult) (w w' : Sys) (r : Res unit) (i : nat) :
  _get_blue_snowball_device_index devices 0 = Some i ->
  record cfg devices reads w = (r, w') ->
  (r <> Blocked -> exists t, trace w' = t ++ released)
  /\ (forall w1,
        while_True cfg reads (loop_entry i w) = (Raise KeyboardInterrupt, w1) ->
        recording (self w1) = true -> buffer (self w1) <> [] ->
        speech_detected_in_recording (self w1) = true ->
        r <> Blocked
        /\ exists t,
             trace w'
             = trace w1
               ++ Print Stopped_by_user
                  :: Call_save_recording (buffer (self w1))
                       (silence_counter (self w1))
                  :: t ++ released)
  /\ (forall w1,
        while_True cfg reads (loop_entry i w) = (Raise KeyboardInterrupt, w1) ->
        recording (self w) = false ->
        Forall pcm16_frame (frames_read reads) ->
        recording (self w1) = true ->
        speech_detected_in_recording (self w1) = true ->
        exists w2,
          r = Ret tt
          /\ persist_outcome cfg
               (mkSys (self w1) (fs w1) (clock w1)
                  (trace w1 ++ [Print Stopped_by_user]))
               w2
          /\ fs w' = fs w2
          /\ trace w' = trace w2 ++ released).
Proof.
  intros Hd H. rewrite (record_eq cfg devices reads w i Hd) in H.
  split; [|split].
  - intros Hnb.
    destruct (while_True cfg reads _) as [[[]|e|] w1] eqn:Hw.
    + injection H as <- <-. eexists. reflexivity.
    + destruct e; try (injection H as <- <-; eexists; reflexivity).
      destruct (on_KeyboardInterrupt cfg w1) as [[[]|e|] w2] eqn:Hk;
        try (injection H as <- <-; eexists; reflexivity).
      apply on_KeyboardInterrupt_not_Blocked in Hk. congruence.
    + congruence.
  - intros w1 Hw Hr Hb Hs. rewrite Hw in H.
    rewrite on_KeyboardInterrupt_saves in H by assumption.
    destruct (save_recording cfg _) as [r2 w2] eqn:Hsave.
    apply save_recording_frame in Hsave as (Hnb & _ & _ & _ & _ & t & Ht & _).
    cbn [self trace] in Ht.
    destruct r2 as [[]|e|]; [| |congruence]; injection H as <- <-;
      (split; [discriminate|]); exists t; cbn [trace]; rewrite Ht;
      rewrite <- !app_assoc; reflexivity.
  - intros w1 Hw Hr0 Hf Hr Hs.
    assert (Hi : segment_invariant (self w1)).
    { apply (while_True_segment_invariant cfg reads (loop_entry i w)
               (Raise KeyboardInterrupt) w1); [|exact Hf|exact Hw].
      split; [constructor|]. cbn. rewrite Hr0. discriminate. }
    destruct Hi as [_ Hi]. destruct (Hi Hr) as [Hb Hlen].
    assert (Hne : buffer (self w1) <> []).
    { intros E. rewrite E in Hlen. unfold len in Hlen. cbn in Hlen. lia. }
    rewrite Hw in H. rewrite on_KeyboardInterrupt_saves in H by assumption.
    destruct (save_recording_persists cfg
                (mkSys (self w1) (fs w1) (clock w1)
                   (trace w1 ++ [Print Stopped_by_user])) Hlen Hb)
      as (w2 & Hsave & Hout).
    rewrite Hsave in H. injection H as <- <-.
    exists w2. auto.
Qed.


(** ** The trailing-silence trim *)

(** The trim applied to the segment of the scenario keeps 11 of its 108
    frames; applied once more to the result, it removes those too. *)
Lemma trim_twice_removes_more :
  silence_counter closing_recorder = 100
  /\ len (buffer closing_recorder) = 108
  /\ len (buffer (trim_trailing_silence closing_recorder)) = 11
  /\ buffer (trim_trailing_silence (trim_trailing_silence closing_recorder))
     = []
  /\ trim_trailing_silence (trim_trailing_silence closing_recorder)
     <> trim_trailing_silence closing_recorder.
Proof.
  vm_compute. repeat split. intros H. discriminate H.
Qed.

(** C7 (as amended).  When the buffer ends with the counted silence, one
    application of the trim keeps everything before that silence and at
    most the configured number of its frames.  The trim leaves the
    silence counter as it is; applied again once the counter is set to
    the number of silence frames kept, it removes nothing. *)
Theorem trim_keeps_configured_silence (s : AudioRecorder)
    (pre sil : list Frame) :
  buffer s = pre ++ sil -> silence_counter s = len sil ->
  0 <= trailing_silence_frames s ->
  let kept := firstn (Z.to_nat (trailing_silence_frames s)) sil in
  buffer (trim_trailing_silence s) = pre ++ kept
  /\ len kept <= trailing_silence_frames s
  /\ silence_counter (trim_trailing_silence s) = silence_counter s
  /\ trim_trailing_silence
       (set_silence_counter (len kept) (trim_trailing_silence s))
     = set_silence_counter (len kept) (trim_trailing_silence s).
Proof.
  intros Hb Hc Hk kept.
  assert (Hkept : len kept <= trailing_silence_frames s).
  { unfold kept, len. rewrite length_firstn. lia. }
  split; [|split; [exact Hkept|split]].
  - unfold trim_trailing_silence.
    destruct (Z.gtb_spec (silence_counter s) (trailing_silence_frames s)).
    + cbn. rewrite Hb, slice_to_minus_app by lia.
      unfold kept. do 2 f_equal. lia.
    + rewrite Hb. unfold kept. rewrite firstn_all2; [reflexivity|].
      unfold len in *. lia.
  - apply trim_trailing_silence_fields.
  - pose proof (trim_trailing_silence_fields s) as (_ & _ & _ & _ & _ & _ & Ht).
    unfold trim_trailing_silence at 1. cbn.
    rewrite Ht.
    destruct (Z.gtb_spec (len kept) (trailing_silence_frames s)); [lia|].
    reflexivity.
Qed.

Lemma trim_keeps_configured_silence_witness :
  buffer (trim_trailing_silence closing_recorder)
  = (map sample_frame (seq 1 7) ++ [sample_frame 7])
    ++ map sample_frame (seq 8 3).
Proof.
  refine (proj1 (trim_keeps_configured_silence closing_recorder
                   (map sample_frame (seq 1 7) ++ [sample_frame 7])
                   (map sample_frame (seq 8 100)) _ _ _));
    vm_compute; (reflexivity || discriminate).
Defined.

(** ** Writing over an existing file *)

(** C3, evaluated.  At a path where a file exists and nothing else stands
    in the way of a write, the FLAC writer, which opens the file in mode
    ['x'], raises [OSError] and leaves the disk as it is; the WAV writer,
    which opens it in mode ['wb'], returns normally and the file now holds
    the new data. *)
Theorem wave_writer_overwrites_existing_file (audio_data : list byte)
    (filepath : string) (w : Sys) (old : AudioFile) :
  files (fs w) !! filepath = Some old ->
  os_refusal filepath (fs w) = None ->
  (exists w',
     _write_audio_file config audio_data filepath w = (Raise OSError, w')
     /\ fs w' = fs w)
  /\ (exists w',
        _write_audio_file config_wav audio_data filepath w = (Ret tt, w')
        /\ files (fs w') !! filepath
           = Some (mkAudioFile WAV 1 2 (sample_rate (self w)) audio_data)).
Proof.
  intros Hold Hos. split.
  - rewrite _write_audio_file_eq.
    change (open_mode_of config) with Mode_x. unfold open_check.
    rewrite Hold, bool_decide_eq_true_2 by (eexists; reflexivity).
    eexists. split; reflexivity.
  - rewrite _write_audio_file_eq.
    change (open_mode_of config_wav) with Mode_wb.
    change (open_check Mode_wb filepath (fs w)) with (os_refusal filepath (fs w)).
    rewrite Hos.
    eexists. split; [reflexivity|]. cbn.
    apply lookup_insert_eq.
Qed.

Lemma wave_writer_overwrites_existing_file_witness :
  exists w',
    _write_audio_file config_wav [x01; x00]
      "/mnt/smbhome/audio_in/recording_20240101_120003.wav"%string
      (mkSys fresh_recorder mounted_disk "20240101_120003"%string [])
    = (Ret tt, w')
    /\ files (fs w')
       !! "/mnt/smbhome/audio_in/recording_20240101_120003.wav"%string
       = Some (mkAudioFile WAV 1 2 16000 [x01; x00]).
Proof.
  refine (proj2 (wave_writer_overwrites_existing_file [x01; x00]
                   "/mnt/smbhome/audio_in/recording_20240101_120003.wav"%string
                   (mkSys fresh_recorder mounted_disk "20240101_120003"%string [])
                   old_recording _ _));
    vm_compute; reflexivity.
Defined.

Lemma save_recording_primary_then_fallback_witness :
  1 < len (buffer (self closing_sys))
  /\ Forall pcm16_frame (buffer (self closing_sys))
  /\ path_exists (network_path (self closing_sys)) (fs closing_sys) = false
  /\ exists w',
       save_recording config closing_sys = (Ret tt, w')
       /\ dirs (fs w') = dirs (fs closing_sys)
       /\ files (fs w')
          = <[ PyStr.path_join (backup_path (self closing_sys))
                 (output_filename config (clock closing_sys))
               := audio_file_of config (self closing_sys)
                    (bytes_join
                       (buffer (trim_trailing_silence (self closing_sys)))) ]>
              (files (fs closing_sys)).
Proof.
  assert (H1 : 1 < len (buffer (self closing_sys)))
    by (vm_compute; reflexivity).
  assert (H2 : Forall pcm16_frame (buffer (self closing_sys)))
    by (vm_compute; repeat constructor).
  assert (H3 : path_exists (network_path (self closing_sys)) (fs closing_sys)
               = false) by (vm_compute; reflexivity).
  assert (H4 : open_check (open_mode_of config)
                 (PyStr.path_join (backup_path (self closing_sys))
                    (output_filename config (clock closing_sys)))
                 (fs closing_sys) = None) by (vm_compute; reflexivity).
  split; [exact H1|]. split; [exact H2|]. split; [exact H3|].
  destruct (save_recording_primary_then_fallback config closing_sys H1 H2)
    as (w' & Hs & Hd & Hf & _).
  exists w'. split; [exact Hs|]. split; [exact Hd|].
  specialize (Hf H3). unfold fallback_outcome in Hf. rewrite H4 in Hf.
  exact (proj1 Hf).
Defined.

Lemma interrupt_saves_then_releases_witness :
  files (fs (state_after
               (speech_reads 1 7 ++ silence_reads 8 2
                ++ [Read_raises KeyboardInterrupt "20240101_120001"%string])))
  !! "./backup_audio/recording_20240101_120001.flac"%string
  = Some (mkAudioFile FLAC 1 2 16000
            (bytes_join (map sample_frame (seq 1 7 ++ 7%nat :: seq 8 2))))
  /\ exists t,
       trace (state_after
                (speech_reads 1 7 ++ silence_reads 8 2
                 ++ [Read_raises KeyboardInterrupt "20240101_120001"%string]))
       = t ++ released.
Proof.
  destruct (interrupt_saves_then_releases config two_devices
              (speech_reads 1 7 ++ silence_reads 8 2
               ++ [Read_raises KeyboardInterrupt "20240101_120001"%string])
              fresh_sys
              (state_after
                 (speech_reads 1 7 ++ silence_reads 8 2
                  ++ [Read_raises KeyboardInterrupt "20240101_120001"%string]))
              (Ret tt) 1%nat)
    as (Hrel & _ & Hsave);
    [vm_compute; reflexivity | vm_compute; reflexivity |].
  split; [|apply Hrel; discriminate].
  destruct (Hsave
              (snd (while_True config
                      (speech_reads 1 7 ++ silence_reads 8 2
                       ++ [Read_raises KeyboardInterrupt
                             "20240101_120001"%string])
                      (loop_entry 1 fresh_sys))))
    as (w2 & _ & (_ & Hfb & _) & Hfs & _);
    [ vm_compute; reflexivity | vm_compute; reflexivity
    | vm_compute; repeat constructor | vm_compute; reflexivity
    | vm_compute; reflexivity | ].
  rewrite Hfs.
  assert (Hex : path_exists "/mnt/smbhome/audio_in/" backup_disk = false)
    by (vm_compute; reflexivity).
  specialize (Hfb Hex). unfold fallback_outcome in Hfb. cbv zeta in Hfb.
  match type of Hfb with
  | match ?c with _ => _ end =>
      assert (Ho : c = None) by (vm_compute; reflexivity);
        rewrite Ho in Hfb
  end.
  destruct Hfb as [Hfiles _]. rewrite Hfiles. vm_compute. reflexivity.
Defined.

(** An interrupted segment whose last frame is cut short: [save_recording]
    raises out of the handler, and the stream and the library are released
    all the same. *)
Example release_after_failed_save :
  record config two_devices
    (speech_reads 1 7
     ++ [Read_frame [x01] (Vad_returns true) "20240101_120000"%string;
         Read_raises KeyboardInterrupt "20240101_120001"%string])
    fresh_sys
  = (Raise ValueError,
     mkSys (self (state_after
                    (speech_reads 1 7
                     ++ [Read_frame [x01] (Vad_returns true)
                           "20240101_120000"%string])))
           backup_disk "20240101_120001"%string
           ([Audio_open 1; Print Listening; Print Speech_confirmed;
             Print Stopped_by_user;
             Call_save_recording
               (map sample_frame (seq 1 7) ++ [sample_frame 7; [x01]]) 0]
            ++ released)).
Proof. vm_compute. reflexivity. Qed.

(** * Further properties *)


(** X6.  While recording, silence runs shorter than the threshold do not end
    the segment: every frame read, speech or not, is appended to the
    buffer in order, and nothing is saved or written. *)
Theorem short_silence_keeps_recording (cfg : Config)
    (reads : list ReadResult) : forall (w w' : Sys) (r : Res unit) (best : Z),
  recording (self w) = true ->
  silence_runs (silence_counter (self w)) best (verdicts reads)
  < silence_threshold (self w) ->
  while_True cfg reads w = (r, w') ->
  recording (self w') = true
  /\ buffer (self w') = buffer (self w) ++ frames_read reads
  /\ fs w' = fs w /\ trace w' = trace w.
Proof.
  induction reads as [|[frame vad now | e now] rest IH];
    intros w w' r best Hr Hrun; cbn [while_True verdicts silence_runs frames_read] in *.
  - intros [= <- <-]. rewrite app_nil_r. auto.
  - cbv [mbind M_bind bind set_clock].
    set (w1 := mkSys (self w) (fs w) now (trace w)).
    destruct (verdict vad) eqn:Hv.
    + rewrite (process_frame_speech_recording cfg frame vad w1) by (cbn; auto).
      intros Hw. eapply IH in Hw; cbn; eauto.
      cbn in Hw. destruct Hw as (H1 & -> & H3 & H4).
      rewrite <- app_assoc. auto.
    + pose proof (silence_runs_lower_bound (verdicts rest)
                    (silence_counter (self w) + 1) best) as [Hlo _].
      rewrite (process_frame_silence_recording cfg frame vad w1)
        by (cbn; auto; lia).
      intros Hw. eapply IH in Hw; cbn; eauto.
      cbn in Hw. destruct Hw as (H1 & -> & H3 & H4).
      rewrite <- app_assoc. auto.
  - cbv [mbind M_bind bind set_clock raise]. intros [= <- <-].
    rewrite app_nil_r. auto.
Qed.

Lemma save_recording_threshold cfg w r w' :
  save_recording cfg w = (r, w') ->
  silence_threshold (self w') = silence_threshold (self w).
Proof.
  intros H. apply save_recording_frame in H as (_ & _ & _ & _ & [-> | ->] & _).
  - reflexivity.
  - apply trim_trailing_silence_fields.
Qed.

Lemma process_frame_loop_invariant cfg frame vad thr w r w' :
  0 < thr -> loop_invariant thr (self w) ->
  process_frame cfg frame vad w = (r, w') ->
  silence_threshold (self w') = thr
  /\ (r = Ret tt -> loop_invariant thr (self w'))
  /\ exists calls,
       save_calls (trace w') = save_calls (trace w) ++ calls
       /\ Forall (closed_segment thr) calls.
Proof.
  intros Hthr [Ht Hinv].
  assert (Hnone : forall t : list Event,
            exists calls, save_calls t = save_calls t ++ calls
                          /\ Forall (closed_segment thr) calls).
  { intros t. exists []. rewrite app_nil_r. auto. }
  destruct (verdict vad) eqn:Hv, (recording (self w)) eqn:Hr.
  - rewrite process_frame_speech_recording by assumption.
    intros [= <- <-]. cbn. split; [exact Ht|]. split; [|apply Hnone].
    intros _. split; [exact Ht|]. cbn. intros _.
    destruct (Hinv eq_refl) as [H1 H2]. rewrite len_app. unfold len in *.
    cbn. lia.
  - destruct (Z_lt_le_dec (speech_frame_counter (self w) + 1)
                (MINIMUM_CONSECUTIVE_SPEECH_FRAMES cfg)).
    + rewrite process_frame_speech_arming by assumption.
      intros [= <- <-]. cbn. split; [exact Ht|]. split; [|apply Hnone].
      intros _. split; [exact Ht|]. cbn. congruence.
    + rewrite process_frame_speech_onset by assumption.
      intros [= <- <-]. cbn. split; [exact Ht|]. split.
      * intros _. split; [exact Ht|]. cbn. intros _.
        rewrite !len_app. unfold len. cbn. lia.
      * rewrite save_calls_app. cbn. rewrite app_nil_r. apply Hnone.
  - destruct (Hinv eq_refl) as [H1 H2].
    destruct (Z_lt_le_dec (silence_counter (self w) + 1)
                (silence_threshold (self w))).
    + rewrite process_frame_silence_recording by assumption.
      intros [= <- <-]. cbn. split; [exact Ht|]. split; [|apply Hnone].
      intros _. split; [exact Ht|]. cbn. intros _.
      rewrite len_app. unfold len in *. cbn. lia.
    + rewrite process_frame_silence_close by assumption.
      destruct (speech_detected_in_recording (self w)).
      * destruct (save_recording cfg _) as [r1 w1] eqn:Hs.
        pose proof (save_recording_threshold _ _ _ _ Hs) as Hth.
        pose proof (save_recording_calls _ _ _ _ Hs) as Hc.
        cbn in Hth, Hc.
        assert (Hcalls : exists calls,
                  save_calls (trace w1) = save_calls (trace w) ++ calls
                  /\ Forall (closed_segment thr) calls).
        { eexists. split; [exact Hc|]. constructor; [|constructor].
          split; cbn; [lia|]. rewrite len_app. unfold len in *. cbn. lia. }
        destruct r1 as [[]|e|]; intros [= <- <-]; cbn;
          (split; [congruence|]); (split; [|exact Hcalls]);
          try discriminate.
        intros _. split; [cbn; congruence|]. cbn. discriminate.
      * intros [= <- <-]. cbn. split; [exact Ht|]. split; [|apply Hnone].
        intros _. split; [exact Ht|]. cbn. discriminate.
  - rewrite process_frame_silence_idle by assumption.
    intros [= <- <-]. cbn. split; [exact Ht|]. split; [|apply Hnone].
    intros _. split; [exact Ht|]. cbn. congruence.
Qed.

(** X5.  The loop keeps the silence counter below the threshold and the
    buffer at least two frames longer than the counter while recording,
    and every segment it hands to [save_recording] is closed by exactly
    [silence_threshold] silence frames and has at least two frames more:
    the length guard of [save_recording] never drops a segment of the
    loop. *)
Theorem loop_segments_are_closed (cfg : Config) (reads : list ReadResult) :
  forall (w w' : Sys) (r : Res unit),
  0 < silence_threshold (self w) -> recording (self w) = false ->
  while_True cfg reads w = (r, w') ->
  silence_threshold (self w') = silence_threshold (self w)
  /\ (r = Blocked -> recording (self w') = true ->
      0 <= silence_counter (self w') < silence_threshold (self w)
      /\ silence_counter (self w') + 2 <= len (buffer (self w')))
  /\ exists calls,
       save_calls (trace w') = save_calls (trace w) ++ calls
       /\ Forall (closed_segment (silence_threshold (self w))) calls.
Proof.
  intros w w' r Hthr Hrec.
  set (thr := silence_threshold (self w)) in *.
  assert (Hinv : loop_invariant thr (self w)).
  { split; [reflexivity|congruence]. }
  clearbody thr. clear Hrec. revert w w' r Hinv.
  induction reads as [|[frame vad now | e now] rest IH]; intros w w' r Hinv.
  - intros [= <- <-]. destruct Hinv as [Ht Hi].
    split; [exact Ht|]. split; [auto|].
    exists []. rewrite app_nil_r. auto.
  - cbn [while_True]. cbv [mbind M_bind bind set_clock].
    destruct (process_frame cfg frame vad _) as [r1 w1] eqn:Hp.
    pose proof (process_frame_not_Blocked _ _ _ _ _ _ Hp) as Hnb.
    apply (process_frame_loop_invariant cfg frame vad thr) in Hp
      as (Ht1 & Hi1 & calls1 & Hc1 & Hf1); [|exact Hthr|exact Hinv].
    cbn [trace] in Hc1.
    destruct r1 as [[]|e|].
    + intros Hw. apply IH in Hw as (Ht2 & Hi2 & calls2 & Hc2 & Hf2);
        [|exact (Hi1 eq_refl)].
      split; [exact Ht2|]. split; [exact Hi2|].
      exists (calls1 ++ calls2). rewrite Hc2, Hc1, app_assoc.
      split; [reflexivity|]. apply Forall_app. auto.
    + intros [= <- <-]. split; [exact Ht1|]. split; [discriminate|].
      exists calls1. auto.
    + congruence.
  - cbn [while_True]. cbv [mbind M_bind bind set_clock raise].
    intros [= <- <-]. destruct Hinv as [Ht Hi].
    split; [exact Ht|]. split; [discriminate|].
    exists []. rewrite app_nil_r. auto.
Qed.

Lemma short_silence_keeps_recording_witness :
  buffer (self (snd (while_True config
                       (silence_reads 8 5 ++ speech_reads 13 2)
                       (loop_state_after (speech_reads 1 7)))))
  = buffer (self (loop_state_after (speech_reads 1 7)))
    ++ frames_read (silence_reads 8 5 ++ speech_reads 13 2).
Proof.
  refine (proj1 (proj2 (short_silence_keeps_recording config
            (silence_reads 8 5 ++ speech_reads 13 2)
            (loop_state_after (speech_reads 1 7))
            (snd (while_True config (silence_reads 8 5 ++ speech_reads 13 2)
                    (loop_state_after (speech_reads 1 7))))
            Blocked 0 _ _ _)));
    vm_compute; reflexivity.
Defined.

Lemma loop_segments_are_closed_witness :
  exists calls,
    save_calls (trace (loop_state_after
                         (speech_reads 1 7 ++ silence_reads 8 100)))
    = save_calls (trace fresh_sys) ++ calls
    /\ Forall (closed_segment (silence_threshold (self fresh_sys))) calls.
Proof.
  refine (proj2 (proj2 (loop_segments_are_closed config
            (speech_reads 1 7 ++ silence_reads 8 100) fresh_sys
            (loop_state_after (speech_reads 1 7 ++ silence_reads 8 100))
            Blocked _ _ _)));
    vm_compute; reflexivity.
Defined.

(** X7.  An exception of [stream.read] other than [KeyboardInterrupt] ends
    [record] with that exception after the release; a segment in progress
    is not saved and the disk is as the frames before left it. *)
Theorem read_error_loses_segment (cfg : Config) (devices : list string)
    (reads : list ReadResult) (e : Exn) (now : string) (i : nat)
    (w w1 : Sys) :
  _get_blue_snowball_device_index devices 0 = Some i ->
  is_Exception e = true ->
  while_True cfg reads (loop_entry i w) = (Blocked, w1) ->
  record cfg devices (reads ++ [Read_raises e now]) w
  = (Raise e, mkSys (self w1) (fs w1) now (trace w1 ++ released)).
Proof.
  intros Hd He Hw. rewrite (record_eq _ _ _ _ i Hd), while_True_append, Hw.
  cbn [while_True]. cbv [mbind M_bind bind set_clock raise].
  cbn [self fs clock trace]. destruct e; try reflexivity. discriminate.
Qed.

Lemma read_error_loses_segment_witness :
  record config two_devices
    ((speech_reads 1 7 ++ silence_reads 8 2)
     ++ [Read_raises OSError "20240101_120001"%string]) fresh_sys
  = (Raise OSError,
     mkSys (self (snd (while_True config (speech_reads 1 7 ++ silence_reads 8 2)
                         (loop_entry 1 fresh_sys))))
           (fs (snd (while_True config (speech_reads 1 7 ++ silence_reads 8 2)
                       (loop_entry 1 fresh_sys))))
           "20240101_120001"%string
           (trace (snd (while_True config (speech_reads 1 7 ++ silence_reads 8 2)
                          (loop_entry 1 fresh_sys)))
            ++ released)).
Proof.
  apply (read_error_loses_segment config two_devices
           (speech_reads 1 7 ++ silence_reads 8 2) OSError
           "20240101_120001"%string 1%nat fresh_sys);
    vm_compute; reflexivity.
Defined.
















Lemma list_ascii_of_string_append (a b : string) :
  list_ascii_of_string (a ++ b)%string
  = list_ascii_of_string a ++ list_ascii_of_string b.
Proof.
  induction a as [|c a IH]; [reflexivity|].
  change (list_ascii_of_string (String c (a ++ b)%string)
          = c :: list_ascii_of_string a ++ list_ascii_of_string b).
  cbn [list_ascii_of_string]. f_equal. exact IH.
Qed.

Lemma upto_last_slash_no_slash (l : list ascii) :
  forallb (fun c => negb (PyStr.is_slash c)) l = true ->
  PyStr.upto_last_slash l = None.
Proof.
  induction l as [|c l IH]; cbn; [reflexivity|].
  intros H. apply andb_prop in H as [Hc Hl]. rewrite (IH Hl).
  destruct (PyStr.is_slash c); [discriminate|reflexivity].
Qed.

Lemma upto_last_slash_app (la lb : list ascii) :
  forallb (fun c => negb (PyStr.is_slash c)) lb = true ->
  PyStr.upto_last_slash (la ++ "/"%char :: lb) = Some (la ++ ["/"%char]).
Proof.
  intros Hb. induction la as [|c la IH]; cbn.
  - rewrite (upto_last_slash_no_slash lb Hb). reflexivity.
  - rewrite IH. reflexivity.
Qed.

Lemma endswith_slash_inv (s : string) :
  PyStr.endswith_slash s = true ->
  exists l, list_ascii_of_string s = l ++ ["/"%char].
Proof.
  unfold PyStr.endswith_slash.
  destruct (rev (list_ascii_of_string s)) as [|c r] eqn:E; [discriminate|].
  intros Hc. unfold PyStr.is_slash in Hc. apply Ascii.eqb_eq in Hc. subst c.
  exists (rev r). rewrite <- (rev_involutive (list_ascii_of_string s)), E.
  reflexivity.
Qed.

Lemma dir_key_append_slash (a : string) :
  a <> ""%string -> PyStr.endswith_slash a = false ->
  PyStr.dir_key (a ++ "/")%string = PyStr.dir_key a.
Proof.
  intros Ha He. unfold PyStr.endswith_slash in He.
  destruct (rev (list_ascii_of_string a)) as [|c r] eqn:E.
  - destruct a; [congruence|]. cbn in E.
    apply (f_equal (@length ascii)) in E. rewrite length_app in E.
    cbn in E. lia.
  - assert (Hall : forall l, rev l = c :: r -> forallb PyStr.is_slash l = false).
    { intros l Hl. rewrite <- (rev_involutive l), Hl. cbn.
      rewrite forallb_app. cbn. rewrite He. cbn. apply andb_false_r. }
    unfold PyStr.dir_key, PyStr.all_slashes, PyStr.rstrip_slash.
    rewrite list_ascii_of_string_append. cbn [list_ascii_of_string].
    rewrite (Hall _ E).
    rewrite forallb_app, (Hall _ E). cbn [andb].
    rewrite rev_app_distr. cbn [rev app PyStr.drop_leading_slashes].
    change (PyStr.is_slash "/") with true. cbn iota.
    reflexivity.
Qed.

Lemma dirname_path_join_eq (a b : string) :
  no_slash b -> PyStr.dirname (PyStr.path_join a b) = PyStr.dir_key a.
Proof.
  intros Hb. unfold PyStr.path_join.
  assert (Hs : PyStr.startswith_slash b = false).
  { unfold no_slash in Hb. destruct b as [|c b]; [reflexivity|].
    cbn in *. destruct (PyStr.is_slash c); [discriminate|reflexivity]. }
  rewrite Hs.
  destruct (String.eqb a "") eqn:Ea.
  - apply String.eqb_eq in Ea. subst a. cbn [orb]. change ("" ++ b)%string with b.
    unfold PyStr.dirname. rewrite (upto_last_slash_no_slash _ Hb).
    reflexivity.
  - cbn [orb]. destruct (PyStr.endswith_slash a) eqn:Ee.
    + destruct (endswith_slash_inv a Ee) as [l Hl].
      unfold PyStr.dirname.
      rewrite list_ascii_of_string_append, Hl, <- app_assoc. cbn [app].
      rewrite (upto_last_slash_app l _ Hb), <- Hl.
      rewrite string_of_list_ascii_of_string. reflexivity.
    + unfold PyStr.dirname.
      rewrite list_ascii_of_string_append. cbn [list_ascii_of_string].
      rewrite (upto_last_slash_app _ _ Hb).
      assert (Hl : list_ascii_of_string a ++ ["/"%char]
                   = list_ascii_of_string (a ++ "/")%string).
      { rewrite list_ascii_of_string_append. reflexivity. }
      rewrite Hl, string_of_list_ascii_of_string.
      apply dir_key_append_slash; [|exact Ee].
      intros ->. discriminate.
Qed.

Lemma open_check_clear mode path d :
  PyStr.dir_key path ∉ dirs d ->
  PyStr.dirname path ∈ dirs d ->
  PyStr.dirname path ∉ denied d ->
  (mode = Mode_x -> files d !! path = None) ->
  open_check mode path d = None.
Proof.
  intros H1 H2 H3 H4.
  assert (Hos : os_refusal path d = None).
  { unfold os_refusal.
    rewrite (bool_decide_eq_false_2 _ H1), (bool_decide_eq_true_2 _ H2),
      (bool_decide_eq_false_2 _ H3).
    reflexivity. }
  unfold open_check. destruct mode; [exact Hos|].
  rewrite (H4 eq_refl), Hos. rewrite bool_decide_eq_false_2; [reflexivity|].
  intros [x Hx]. discriminate.
Qed.

Lemma save_recording_primary_path (cfg : Config) (w : Sys) :
  let name := output_filename cfg (clock w) in
  let primary := PyStr.path_join (network_path (self w)) name in
  1 < len (buffer (self w)) -> Forall pcm16_frame (buffer (self w)) ->
  no_slash name ->
  network_path (self w) <> ""%string ->
  PyStr.dir_key (network_path (self w)) ∈ dirs (fs w) ->
  PyStr.dir_key (network_path (self w)) ∉ denied (fs w) ->
  PyStr.dir_key primary ∉ dirs (fs w) ->
  (open_mode_of cfg = Mode_x -> files (fs w) !! primary = None) ->
  save_recording cfg w
  = (Ret tt,
     mkSys (trim_trailing_silence (self w))
       (store_file primary
          (audio_file_of cfg (self w)
             (bytes_join (buffer (trim_trailing_silence (self w)))))
          (fs w))
       (clock w)
       (trace w
        ++ [Call_save_recording (buffer (self w)) (silence_counter (self w));
            Call_write_audio_file primary; Print (Saved_network primary)])).
Proof.
  intros name primary Hlen Hb Hname Hne Hdir Hden Hfree Hnew.
  apply (trim_trailing_silence_Forall pcm16_frame) in Hb.
  apply bytes_join_even in Hb.
  assert (Ho : open_check (open_mode_of cfg) primary (fs w) = None).
  { apply open_check_clear; auto; unfold primary;
      rewrite dirname_path_join_eq by exact Hname; assumption. }
  assert (Hex : path_exists (network_path (self w)) (fs w) = true).
  { unfold path_exists. rewrite (bool_decide_eq_true_2 _ Hdir).
    apply String.eqb_neq in Hne. rewrite Hne. reflexivity. }
  unfold save_recording.
  cbv [mbind mret M_bind M_ret bind ret raise get_self upd get_fs
       datetime_now emit np_frombuffer_int16 try_except_Exception].
  cbn [self fs clock trace].
  destruct (Z.leb_spec (len (buffer (self w))) 1) as [|_]; [lia|].
  cbn [self fs clock trace]. rewrite Hb. cbn [self fs clock trace].
  fold (output_filename cfg (clock w)). fold name.
  assert (Hsr : forall d, audio_file_of cfg (trim_trailing_silence (self w)) d
                          = audio_file_of cfg (self w) d).
  { intros d. unfold audio_file_of, trim_trailing_silence.
    destruct (_ >? _); reflexivity. }
  assert (Hnp : network_path (trim_trailing_silence (self w))
                = network_path (self w)).
  { unfold trim_trailing_silence. destruct (_ >? _); reflexivity. }
  rewrite Hnp. fold primary. rewrite Hex. cbn [negb self fs clock trace].
  rewrite _write_audio_file_eq. cbn [self fs clock trace].
  rewrite Ho, Hsr. cbn [self fs clock trace].
  rewrite <- !app_assoc. reflexivity.
Qed.

(** X9.  When the network directory exists and accepts files, and nothing
    is in the way at the primary path, [save_recording] trims the buffer,
    stores the segment at the primary path and reports it; it makes no
    fallback write, so the backup directory gets nothing. *)
Theorem save_recording_primary_success (cfg : Config) (w : Sys) :
  let name := output_filename cfg (clock w) in
  let primary := PyStr.path_join (network_path (self w)) name in
  1 < len (buffer (self w)) -> Forall pcm16_frame (buffer (self w)) ->
  no_slash name ->
  network_path (self w) <> ""%string ->
  PyStr.dir_key (network_path (self w)) ∈ dirs (fs w) ->
  PyStr.dir_key (network_path (self w)) ∉ denied (fs w) ->
  PyStr.dir_key primary ∉ dirs (fs w) ->
  (open_mode_of cfg = Mode_x -> files (fs w) !! primary = None) ->
  save_recording cfg w
  = (Ret tt,
     mkSys (trim_trailing_silence (self w))
       (store_file primary
          (audio_file_of cfg (self w)
             (bytes_join (buffer (trim_trailing_silence (self w)))))
          (fs w))
       (clock w)
       (trace w
        ++ [Call_save_recording (buffer (self w)) (silence_counter (self w));
            Call_write_audio_file primary; Print (Saved_network primary)])).
Proof. exact (save_recording_primary_path cfg w). Qed.

Lemma save_recording_primary_success_witness :
  files (fs (snd (save_recording config
                    (mkSys closing_recorder mounted_disk
                       "20240101_120004"%string []))))
  !! "/mnt/smbhome/audio_in/recording_20240101_120004.flac"%string
  = Some (mkAudioFile FLAC 1 2 16000
            (bytes_join (map sample_frame (seq 1 7 ++ 7%nat :: seq 8 3)))).
Proof.
  rewrite (save_recording_primary_success config
             (mkSys closing_recorder mounted_disk "20240101_120004"%string []));
    first [ vm_compute; reflexivity
          | vm_compute; intros H; discriminate H
          | vm_compute; intros _; reflexivity
          | vm_compute; repeat constructor ].
Defined.

(** X10.  The trim removes frames from the end of the buffer only: the
    buffer is the trimmed buffer followed by what was cut, the cut is
    [silence_counter - trailing_silence_frames] frames long when that is
    positive, the whole buffer when it has fewer frames, and no other
    attribute of the recorder changes. *)
Theorem trim_cuts_only_the_tail (s : AudioRecorder) :
  exists cut,
    buffer s = buffer (trim_trailing_silence s) ++ cut
    /\ len cut
       = Z.min (len (buffer s))
           (Z.max 0 (silence_counter s - trailing_silence_frames s))
    /\ trim_trailing_silence s = set_buffer (buffer (trim_trailing_silence s)) s.
Proof.
  unfold trim_trailing_silence.
  destruct (Z.gtb_spec (silence_counter s) (trailing_silence_frames s)).
  - cbn. unfold slice_to_minus.
    destruct (Z.eqb_spec (silence_counter s - trailing_silence_frames s) 0);
      [lia|].
    exists (skipn (Z.to_nat (len (buffer s)
                             - (silence_counter s - trailing_silence_frames s)))
              (buffer s)).
    rewrite firstn_skipn. split; [reflexivity|]. split; [|reflexivity].
    unfold len. rewrite length_skipn. lia.
  - exists []. rewrite app_nil_r. split; [reflexivity|]. split.
    + unfold len. cbn. lia.
    + destruct s; reflexivity.
Qed.

(** ** Device selection *)

Lemma prefix_inv (a b : string) :
  String.prefix a b = true <-> exists r, b = (a ++ r)%string.
Proof.
  revert b. induction a as [|c a IH]; intros b.
  - destruct b; cbn; split; eauto.
  - destruct b as [|c' b]; cbn.
    + split; [discriminate|]. intros [r Hr]. discriminate.
    + destruct (ascii_dec c c') as [->|Hne].
      * rewrite IH. split; intros [r Hr]; exists r.
        -- change (String c' b = String c' (a ++ r)%string). now rewrite Hr.
        -- change (String c' b = String c' (a ++ r)%string) in Hr.
           now injection Hr.
      * split; [discriminate|]. intros [r Hr].
        change (String c' b = String c (a ++ r)%string) in Hr.
        injection Hr as Hc _. congruence.
Qed.

(** [str_contains] decides the substring relation. *)
Lemma str_contains_spec (needle hay : string) :
  str_contains needle hay = true
  <-> exists pre post, hay = (pre ++ needle ++ post)%string.
Proof.
  induction hay as [|c hay IH]; cbn [str_contains].
  - rewrite orb_false_r, prefix_inv. split.
    + intros [r Hr]. exists ""%string, r. exact Hr.
    + intros (pre & post & H). destruct pre as [|c pre].
      * exists post. exact H.
      * discriminate H.
  - rewrite orb_true_iff, prefix_inv, IH. split.
    + intros [[r Hr] | (pre & post & H)].
      * exists ""%string, r. exact Hr.
      * exists (String c pre), post. rewrite H. reflexivity.
    + intros (pre & post & H). destruct pre as [|c' pre].
      * left. exists post. exact H.
      * right. exists pre, post.
        change (String c hay = String c' (pre ++ needle ++ post)%string) in H.
        now injection H.
Qed.


Lemma device_index_none (names : list string) : forall k,
  _get_blue_snowball_device_index names k = None
  <-> Forall (fun name => str_contains "snowball" (PyStr.lower name) = false)
        names.
Proof.
  induction names as [|name names IH]; intros k; cbn.
  - split; auto.
  - destruct (str_contains "snowball" (PyStr.lower name)) eqn:Hc.
    + split; [discriminate|]. intros H. inversion H. congruence.
    + rewrite IH. split; [auto|]. intros H. now inversion H.
Qed.



(** X2.  When no device name contains "snowball" in any letter case,
    [record] terminates the audio library and raises without opening a
    stream or reading a frame; recorder and disk are untouched. *)
Theorem record_without_microphone (cfg : Config) (devices : list string)
    (reads : list ReadResult) (w : Sys) :
  (forall name pre post,
     name ∈ devices ->
     PyStr.lower name <> (pre ++ "snowball" ++ post)%string) ->
  record cfg devices reads w
  = (Raise PlainException,
     mkSys (self w) (fs w) (clock w) (trace w ++ [Audio_terminate])).
Proof.
  intros H. unfold record.
  assert (Hn : _get_blue_snowball_device_index devices 0 = None).
  { apply device_index_none. apply Forall_forall. intros name Hin.
    destruct (str_contains "snowball" (PyStr.lower name)) eqn:Hc;
      [|reflexivity].
    apply str_contains_spec in Hc as (pre & post & Hc).
    exfalso. eapply H; eauto. }
  rewrite Hn. reflexivity.
Qed.

Lemma record_without_microphone_witness :
  record config ["HDA Intel PCH"%string] (speech_reads 1 7) fresh_sys
  = (Raise PlainException,
     mkSys fresh_recorder backup_disk ""%string [Audio_terminate]).
Proof.
  apply (record_without_microphone config ["HDA Intel PCH"%string]
           (speech_reads 1 7) fresh_sys).
  intros name pre post Hin Heq.
  apply list_elem_of_singleton in Hin. subst name.
  assert (Hc : str_contains "snowball" (PyStr.lower "HDA Intel PCH") = true)
    by (apply str_contains_spec; eauto).
  vm_compute in Hc. discriminate Hc.
Defined.

(** ** The constructor *)

Lemma os_makedirs_creates (p : string) (f f' : FS) :
  os_makedirs p f = inr f' ->
  path_exists p f' = true /\ dirs f ⊆ dirs f' /\ files f' = files f.
Proof.
  unfold os_makedirs.
  set (chain := makedirs_chain (S (String.length p)) (PyStr.dir_key p)).
  assert (Hhead : PyStr.dir_key p ∈ chain) by apply list_elem_of_here.
  clearbody chain. cbv zeta.
  destruct (String.eqb p "") eqn:Hp; [discriminate|].
  destruct (bool_decide (is_Some (files f !! PyStr.dir_key p)));
    [discriminate|].
  destruct (existsb _ chain); [discriminate|].
  destruct (existsb _ (List.filter _ chain)); [discriminate|]. intros [= <-].
  unfold path_exists. rewrite Hp. cbn [dirs files negb andb]. split; [|split].
  - apply orb_true_intro. left. apply bool_decide_eq_true_2.
    apply elem_of_union. left. apply elem_of_list_to_set. exact Hhead.
  - apply union_subseteq_r.
  - reflexivity.
Qed.

(** X3.  With a VAD sensitivity that [webrtcvad.Vad] accepts (0 to 3),
    [__init__] raises [ZeroDivisionError] for a frame duration of 0,
    before it touches the disk.  When it succeeds, the recorder is not
    recording, its buffer is empty and its silence counter is 0, the
    backup path exists, no directory is lost and no file is touched; and
    on a disk where the backup path existed the disk is unchanged. *)
Theorem init_creates_backup_directory (cfg : Config) (f : FS) :
  0 <= VAD_SENSITIVITY cfg <= 3 ->
  (FRAME_DURATION cfg = 0 ->
   AudioRecorder_init cfg f = inl ZeroDivisionError)
  /\ (forall s f',
        AudioRecorder_init cfg f = inr (s, f') ->
        recording s = false /\ buffer s = [] /\ silence_counter s = 0
        /\ speech_detected_in_recording s = false
        /\ network_path s = NETWORK_PATH cfg
        /\ backup_path s = BACKUP_PATH cfg
        /\ path_exists (BACKUP_PATH cfg) f' = true
        /\ dirs f ⊆ dirs f' /\ files f' = files f
        /\ (path_exists (BACKUP_PATH cfg) f = true -> f' = f)).
Proof.
  intros Hvad. unfold AudioRecorder_init, frames_of_seconds.
  assert (Hv : negb ((0 <=? VAD_SENSITIVITY cfg)
                     && (VAD_SENSITIVITY cfg <=? 3)) = false).
  { destruct (Z.leb_spec 0 (VAD_SENSITIVITY cfg)); [|lia].
    destruct (Z.leb_spec (VAD_SENSITIVITY cfg) 3); [reflexivity|lia]. }
  rewrite Hv. split.
  - intros ->. reflexivity.
  - intros s f'. destruct (FRAME_DURATION cfg =? 0); [discriminate|].
    destruct (path_exists (BACKUP_PATH cfg) f) eqn:Hex.
    + intros [= <- <-]. cbn. repeat split; auto.
    + destruct (os_makedirs (BACKUP_PATH cfg) f) as [e|f1] eqn:Hm;
        [discriminate|].
      intros [= <- <-].
      cbn [recording buffer silence_counter speech_detected_in_recording
           network_path backup_path].
      apply os_makedirs_creates in Hm as (H1 & H2 & H3).
      repeat split; auto; discriminate.
Qed.

Lemma while_True_arming_run cfg rest xs : forall w,
  recording (self w) = false ->
  speech_frame_counter (self w) + len xs
  < MINIMUM_CONSECUTIVE_SPEECH_FRAMES cfg ->
  exists w1,
    while_True cfg (speech_of xs ++ rest) w = while_True cfg rest w1
    /\ recording (self w1) = false
    /\ speech_frame_counter (self w1) = speech_frame_counter (self w) + len xs
    /\ speech_pre_buffer (self w1) = speech_pre_buffer (self w) ++ map fst xs
    /\ silence_threshold (self w1) = silence_threshold (self w)
    /\ save_calls (trace w1) = save_calls (trace w).
Proof.
  unfold len. induction xs as [|x xs IH]; intros w Hr Hc.
  - exists w. cbn. rewrite app_nil_r, Z.add_0_r. auto 10.
  - cbn [speech_of map app while_True]. cbv [mbind M_bind bind set_clock].
    cbn [length] in Hc.
    rewrite process_frame_speech_arming by (cbn; auto; lia).
    cbn [self fs clock trace].
    match goal with |- context [while_True _ _ ?w1] =>
      destruct (IH w1) as (w2 & Heq & H1 & H2 & H3 & H4 & H5);
        [exact Hr | cbn; lia |]
    end.
    exists w2. split; [exact Heq|]. cbn in *.
    rewrite H2, H3, <- app_assoc. repeat split; auto. lia.
Qed.

Lemma while_True_silence_run cfg rest xs : forall w,
  recording (self w) = true ->
  silence_counter (self w) + len xs < silence_threshold (self w) ->
  exists w1,
    while_True cfg (silence_of xs ++ rest) w = while_True cfg rest w1
    /\ recording (self w1) = true
    /\ silence_counter (self w1) = silence_counter (self w) + len xs
    /\ buffer (self w1) = buffer (self w) ++ map fst xs
    /\ speech_pre_buffer (self w1) = speech_pre_buffer (self w)
    /\ speech_detected_in_recording (self w1)
       = speech_detected_in_recording (self w)
    /\ silence_threshold (self w1) = silence_threshold (self w)
    /\ save_calls (trace w1) = save_calls (trace w).
Proof.
  unfold len. induction xs as [|x xs IH]; intros w Hr Hc.
  - exists w. cbn. rewrite app_nil_r, Z.add_0_r. auto 10.
  - cbn [silence_of map app while_True]. cbv [mbind M_bind bind set_clock].
    cbn [length] in Hc.
    rewrite process_frame_silence_recording by (cbn; auto; lia).
    cbn [self fs clock trace].
    match goal with |- context [while_True _ _ ?w1] =>
      destruct (IH w1) as (w2 & Heq & H1 & H2 & H3 & H4 & H5 & H6 & H7);
        [exact Hr | cbn; lia |]
    end.
    exists w2. split; [exact Heq|]. cbn in *.
    rewrite H2, H3, <- app_assoc. repeat split; auto. lia.
Qed.

(** X11.  The segment a first utterance gives.  From a recorder that is not
    recording, with the speech counter at 0, exactly
    [MINIMUM_CONSECUTIVE_SPEECH_FRAMES] speech frames followed by exactly
    [silence_threshold] silence frames lead to one call of
    [save_recording], on the pre-buffer as it was, the speech frames, the
    last speech frame once more, and the silence frames, in this order;
    the recorder is then not recording, with an empty buffer. *)
Theorem utterance_gives_one_segment (cfg : Config)
    (xs sil : list (Frame * string)) (x s : Frame * string) (w : Sys) :
  recording (self w) = false -> speech_frame_counter (self w) = 0 ->
  len xs + 1 = MINIMUM_CONSECUTIVE_SPEECH_FRAMES cfg ->
  len sil + 1 = silence_threshold (self w) ->
  Forall pcm16_frame
    (speech_pre_buffer (self w) ++ map fst xs ++ [fst x; fst x]
     ++ map fst sil ++ [fst s]) ->
  exists w',
    while_True cfg (speech_of (xs ++ [x]) ++ silence_of (sil ++ [s])) w
    = (Blocked, w')
    /\ recording (self w') = false /\ buffer (self w') = []
    /\ save_calls (trace w')
       = save_calls (trace w)
         ++ [(speech_pre_buffer (self w) ++ map fst xs ++ [fst x; fst x]
              ++ map fst sil ++ [fst s],
              silence_threshold (self w))].
Proof.
  intros Hr H0 Hmin Hthr Hpcm.
  unfold speech_of, silence_of. rewrite !map_app, <- app_assoc.
  fold (speech_of xs). fold (silence_of sil). cbn [map app].
  destruct (while_True_arming_run cfg
              (Read_frame (fst x) (Vad_returns true) (snd x)
               :: silence_of sil
                  ++ [Read_frame (fst s) (Vad_returns false) (snd s)])
              xs w Hr) as (w1 & -> & H1 & H2 & H3 & H4 & H5); [lia|].
  cbn [while_True]. cbv [mbind M_bind bind set_clock].
  rewrite process_frame_speech_onset by (cbn; auto; lia).
  cbn [self fs clock trace].
  match goal with |- context [while_True _ _ ?w2] =>
    destruct (while_True_silence_run cfg
                [Read_frame (fst s) (Vad_returns false) (snd s)] sil w2)
      as (w3 & -> & G1 & G2 & G3 & G4 & G5 & G6 & G7);
      [reflexivity | cbn; lia |]
  end.
  cbn in G2, G3, G4, G5, G6, G7.
  rewrite save_calls_app in G7. cbn in G7. rewrite app_nil_r in G7.
  cbn [while_True]. cbv [mbind M_bind bind set_clock blocked].
  match goal with |- context [process_frame _ _ _ ?w4] =>
    destruct (process_frame_close_resets cfg (fst s) (Vad_returns false) w4)
      as (w5 & -> & K1 & K2 & _ & _ & _ & _ & K7)
  end.
  - reflexivity.
  - exact G1.
  - cbn. lia.
  - cbn. rewrite G3, H3.
    rewrite <- !app_assoc in *. cbn [app] in *. exact Hpcm.
  - exists w5. split; [reflexivity|]. split; [exact K1|]. split; [exact K2|].
    cbn in K7. rewrite K7, G7, H5, G5, G3, H3, G2.
    rewrite <- !app_assoc. cbn [app].
    do 2 f_equal. f_equal. lia.
Qed.

Lemma utterance_gives_one_segment_witness :
  exists w',
    while_True config
      (speech_of (map (fun n => (sample_frame n, "20240101_120000"%string))
                    (seq 1 6)
                  ++ [(sample_frame 7, "20240101_120000"%string)])
       ++ silence_of (map (fun n => (sample_frame n, "20240101_120003"%string))
                        (seq 8 99)
                      ++ [(sample_frame 107, "20240101_120003"%string)]))
      fresh_sys
    = (Blocked, w')
    /\ recording (self w') = false /\ buffer (self w') = []
    /\ save_calls (trace w')
       = save_calls (trace fresh_sys)
         ++ [(speech_pre_buffer (self fresh_sys)
              ++ map fst (map (fun n => (sample_frame n, "20240101_120000"%string))
                            (seq 1 6))
              ++ [sample_frame 7; sample_frame 7]
              ++ map fst (map (fun n => (sample_frame n, "20240101_120003"%string))
                            (seq 8 99))
              ++ [sample_frame 107],
              silence_threshold (self fresh_sys))].
Proof.
  apply (utterance_gives_one_segment config
           (map (fun n => (sample_frame n, "20240101_120000"%string)) (seq 1 6))
           (map (fun n => (sample_frame n, "20240101_120003"%string)) (seq 8 99))
           (sample_frame 7, "20240101_120000"%string)
           (sample_frame 107, "20240101_120003"%string) fresh_sys);
    first [ vm_compute; reflexivity | vm_compute; repeat constructor ].
Defined.

Lemma init_creates_backup_directory_witness :
  path_exists (BACKUP_PATH config) backup_disk = true.
Proof.
  refine (proj1 (proj2 (proj2 (proj2 (proj2 (proj2 (proj2
            (proj2 (init_creates_backup_directory config empty_disk _)
               fresh_recorder backup_disk _)))))))).
  - cbn. lia.
  - vm_compute. reflexivity.
Defined.

(** ** What the loop leaves alone *)

Lemma same_settings_refl s : same_settings s s.
Proof. repeat split. Qed.

Lemma same_settings_trans a b c :
  same_settings a b -> same_settings b c -> same_settings a c.
Proof.
  unfold same_settings.
  intros (A1 & A2 & A3 & A4 & A5 & A6 & A7) (B1 & B2 & B3 & B4 & B5 & B6 & B7).
  repeat split; congruence.
Qed.

Lemma trim_trailing_silence_settings s :
  same_settings s (trim_trailing_silence s).
Proof.
  unfold trim_trailing_silence.
  destruct (silence_counter s >? trailing_silence_frames s);
    repeat split.
Qed.

Lemma save_recording_settings cfg w r w' :
  save_recording cfg w = (r, w') -> same_settings (self w) (self w').
Proof.
  intros H. apply save_recording_frame in H as (_ & _ & _ & _ & [-> | ->] & _).
  - apply same_settings_refl.
  - apply trim_trailing_silence_settings.
Qed.

(** One pass through the loop body keeps the settings, and either makes no
    call of [save_recording] and leaves the disk alone, or makes one. *)
Lemma process_frame_effect cfg frame vad w r w' :
  process_frame cfg frame vad w = (r, w') ->
  same_settings (self w) (self w')
  /\ ((fs w' = fs w /\ save_calls (trace w') = save_calls (trace w))
      \/ exists c, save_calls (trace w') = save_calls (trace w) ++ [c]).
Proof.
  destruct (verdict vad) eqn:Hv, (recording (self w)) eqn:Hr.
  - rewrite process_frame_speech_recording by assumption.
    intros [= <- <-]. split; [repeat split|]. left. auto.
  - destruct (Z_lt_le_dec (speech_frame_counter (self w) + 1)
                (MINIMUM_CONSECUTIVE_SPEECH_FRAMES cfg)).
    + rewrite process_frame_speech_arming by assumption.
      intros [= <- <-]. split; [repeat split|]. left. auto.
    + rewrite process_frame_speech_onset by assumption.
      intros [= <- <-]. split; [repeat split|]. left. cbn.
      rewrite save_calls_app. cbn. rewrite app_nil_r. auto.
  - destruct (Z_lt_le_dec (silence_counter (self w) + 1)
                (silence_threshold (self w))).
    + rewrite process_frame_silence_recording by assumption.
      intros [= <- <-]. split; [repeat split|]. left. auto.
    + rewrite process_frame_silence_close by assumption.
      destruct (speech_detected_in_recording (self w)).
      * destruct (save_recording cfg _) as [[[]| |] w1] eqn:Hs;
          intros [= <- <-]; cbn [self fs clock trace];
          pose proof (save_recording_settings _ _ _ _ Hs) as Hset;
          pose proof (save_recording_calls _ _ _ _ Hs) as Hc;
          cbn [self fs clock trace] in Hset, Hc;
          (split; [|right; eexists; exact Hc]);
          (eapply same_settings_trans; [|eapply same_settings_trans;
                                          [exact Hset|]]);
          repeat split.
      * intros [= <- <-]. split; [repeat split|]. left. auto.
  - rewrite process_frame_silence_idle by assumption.
    intros [= <- <-]. split; [repeat split|]. left. auto.
Qed.

Lemma while_True_effect cfg reads : forall w r w',
  while_True cfg reads w = (r, w') ->
  same_settings (self w) (self w')
  /\ exists calls,
       save_calls (trace w') = save_calls (trace w) ++ calls
       /\ (calls = [] -> fs w' = fs w).
Proof.
  induction reads as [|[frame vad now | e now] rest IH]; intros w r w'.
  - intros [= <- <-]. split; [apply same_settings_refl|].
    exists []. rewrite app_nil_r. auto.
  - cbn [while_True]. cbv [mbind M_bind bind set_clock].
    destruct (process_frame cfg frame vad _) as [[[]| |] w1] eqn:Hp;
      apply process_frame_effect in Hp as (Hs & Hd);
      cbn [self fs clock trace] in Hs, Hd.
    + intros H. apply IH in H as (Hs' & calls & Hc & Hf).
      split; [eapply same_settings_trans; eassumption|].
      destruct Hd as [[Hfs Hsc] | [c Hsc]].
      * exists calls. rewrite Hc, Hsc. split; [reflexivity|].
        intros E. rewrite (Hf E). exact Hfs.
      * exists (c :: calls). rewrite Hc, Hsc, <- app_assoc.
        split; [reflexivity|]. discriminate.
    + intros [= <- <-]. split; [exact Hs|].
      destruct Hd as [[Hfs Hsc] | [c Hsc]].
      * exists []. rewrite app_nil_r. auto.
      * exists [c]. split; [exact Hsc|]. discriminate.
    + intros [= <- <-]. split; [exact Hs|].
      destruct Hd as [[Hfs Hsc] | [c Hsc]].
      * exists []. rewrite app_nil_r. auto.
      * exists [c]. split; [exact Hsc|]. discriminate.
  - cbn [while_True]. cbv [mbind M_bind bind set_clock raise].
    intros [= <- <-]. split; [apply same_settings_refl|].
    exists []. rewrite app_nil_r. auto.
Qed.

Lemma on_KeyboardInterrupt_effect cfg w r w' :
  on_KeyboardInterrupt cfg w = (r, w') ->
  same_settings (self w) (self w')
  /\ exists calls,
       save_calls (trace w') = save_calls (trace w) ++ calls
       /\ (calls = [] -> fs w' = fs w).
Proof.
  cbv [on_KeyboardInterrupt mbind M_bind bind emit get_self mret M_ret ret].
  cbn [self fs clock trace].
  destruct (_ && _)%bool.
  - intros H.
    pose proof (save_recording_settings _ _ _ _ H) as Hs.
    pose proof (save_recording_calls _ _ _ _ H) as Hc.
    cbn [self fs clock trace] in Hs, Hc.
    split; [exact Hs|]. eexists. rewrite Hc, save_calls_app. cbn.
    rewrite app_nil_r. split; [reflexivity|]. discriminate.
  - intros [= <- <-]. split; [apply same_settings_refl|].
    exists []. cbn. rewrite save_calls_app. cbn. rewrite !app_nil_r. auto.
Qed.

Lemma record_effect cfg devices reads w r w' :
  record cfg devices reads w = (r, w') ->
  same_settings (self w) (self w')
  /\ exists calls,
       save_calls (trace w') = save_calls (trace w) ++ calls
       /\ (calls = [] -> fs w' = fs w).
Proof.
  destruct (_get_blue_snowball_device_index devices 0) as [i|] eqn:Hd.
  - rewrite (record_eq _ _ _ _ i Hd).
    destruct (while_True cfg reads (loop_entry i w)) as [r1 w1] eqn:Hw.
    apply while_True_effect in Hw as (Hs & calls & Hc & Hf).
    assert (Hs0 : same_settings (self w) (self w1)).
    { eapply same_settings_trans; [|exact Hs]. repeat split. }
    assert (Hc0 : save_calls (trace w1) = save_calls (trace w) ++ calls).
    { rewrite Hc. unfold loop_entry. cbn [trace].
      rewrite save_calls_app. cbn. rewrite app_nil_r. reflexivity. }
    cbn [loop_entry fs] in Hf.
    assert (Hrel : forall t, save_calls (t ++ released) = save_calls t).
    { intros t. rewrite save_calls_app. cbn. apply app_nil_r. }
    destruct r1 as [[]|e|].
    + intros [= <- <-]. cbn [self fs clock trace]. split; [exact Hs0|].
      exists calls. rewrite Hrel. auto.
    + destruct e;
        try (intros [= <- <-]; cbn [self fs clock trace];
             split; [exact Hs0|]; exists calls; rewrite Hrel; auto).
      destruct (on_KeyboardInterrupt cfg w1) as [r2 w2] eqn:Hk.
      apply on_KeyboardInterrupt_effect in Hk as (Hs2 & calls2 & Hc2 & Hf2).
      assert (Hfin : same_settings (self w) (self w2)
                     /\ exists cs,
                          save_calls (trace w2) = save_calls (trace w) ++ cs
                          /\ (cs = [] -> fs w2 = fs w)).
      { split; [eapply same_settings_trans; eassumption|].
        exists (calls ++ calls2). rewrite Hc2, Hc0, <- app_assoc.
        split; [reflexivity|].
        intros E. apply app_eq_nil in E as [E1 E2].
        rewrite (Hf2 E2). auto. }
      destruct Hfin as (Hfs & cs & Hcs & Hfcs).
      destruct r2 as [[]|e2|]; intros [= <- <-]; cbn [self fs clock trace];
        (split; [exact Hfs|]); exists cs; rewrite ?Hrel; auto.
    + intros [= <- <-]. split; [exact Hs0|]. exists calls. auto.
  - unfold record. rewrite Hd.
    cbv [mbind M_bind bind emit raise]. cbn [self fs clock trace].
    intros [= <- <-]. cbn [self fs clock trace].
    split; [apply same_settings_refl|].
    exists []. rewrite save_calls_app. cbn. rewrite !app_nil_r. auto.
Qed.

(** X12.  [record] never changes what [__init__] derived from the
    configuration: sample rate, frame duration and size, the two
    thresholds and the two paths are after a run, however it ends, what
    they were before. *)
Theorem record_keeps_settings (cfg : Config) (devices : list string)
    (reads : list ReadResult) (w w' : Sys) (r : Res unit) :
  record cfg devices reads w = (r, w') -> same_settings (self w) (self w').
Proof. intros H. apply record_effect in H. tauto. Qed.

(** X13.  [record] touches the disk only inside [save_recording]: a run in
    which [save_recording] is not called, however long and however it
    ends, leaves the disk exactly as it was. *)
Theorem disk_changes_only_in_save_recording (cfg : Config)
    (devices : list string) (reads : list ReadResult) (w w' : Sys)
    (r : Res unit) :
  record cfg devices reads w = (r, w') ->
  save_calls (trace w') = save_calls (trace w) ->
  fs w' = fs w.
Proof.
  intros H Hc. apply record_effect in H as (_ & calls & Hc' & Hf).
  apply Hf. rewrite Hc in Hc'.
  rewrite <- (app_nil_r (save_calls (trace w))) in Hc' at 1.
  apply app_inv_head in Hc'. auto.
Qed.

(** ** The loop does not stop by itself *)

Lemma process_frame_pcm16 cfg frame vad w :
  pcm16_frame frame ->
  Forall pcm16_frame (buffer (self w)) ->
  Forall pcm16_frame (speech_pre_buffer (self w)) ->
  exists w',
    process_frame cfg frame vad w = (Ret tt, w')
    /\ Forall pcm16_frame (buffer (self w'))
    /\ Forall pcm16_frame (speech_pre_buffer (self w')).
Proof.
  intros Hf Hb Hp.
  assert (Hbf : Forall pcm16_frame (buffer (self w) ++ [frame])).
  { apply Forall_app. split; [exact Hb|]. repeat constructor. exact Hf. }
  assert (Hpf : Forall pcm16_frame (speech_pre_buffer (self w) ++ [frame])).
  { apply Forall_app. split; [exact Hp|]. repeat constructor. exact Hf. }
  destruct (verdict vad) eqn:Hv, (recording (self w)) eqn:Hr.
  - rewrite process_frame_speech_recording by assumption.
    eexists. split; [reflexivity|]. cbn. auto.
  - destruct (Z_lt_le_dec (speech_frame_counter (self w) + 1)
                (MINIMUM_CONSECUTIVE_SPEECH_FRAMES cfg)).
    + rewrite process_frame_speech_arming by assumption.
      eexists. split; [reflexivity|]. cbn. auto.
    + rewrite process_frame_speech_onset by assumption.
      eexists. split; [reflexivity|]. cbn. split; [|constructor].
      apply Forall_app. split; [exact Hpf|]. repeat constructor. exact Hf.
  - destruct (Z_lt_le_dec (silence_counter (self w) + 1)
                (silence_threshold (self w))).
    + rewrite process_frame_silence_recording by assumption.
      eexists. split; [reflexivity|]. cbn. auto.
    + destruct (process_frame_close_resets cfg frame vad w Hv Hr l Hbf)
        as (w' & -> & _ & Hb' & _ & _ & _ & Hp' & _).
      exists w'. split; [reflexivity|]. rewrite Hb', Hp'.
      split; [constructor | exact Hp].
  - rewrite process_frame_silence_idle by assumption.
    eexists. split; [reflexivity|]. cbn. split; [exact Hb | constructor].
Qed.

(** X14.  As long as [stream.read] delivers frames, the loop goes on: no
    failure of the classifier and no failure of a write, at the primary
    or at the backup path, raises out of the loop body. *)
Theorem loop_survives_failures (cfg : Config) (reads : list ReadResult) :
  forall w : Sys,
  only_frames reads ->
  Forall pcm16_frame (buffer (self w)) ->
  Forall pcm16_frame (speech_pre_buffer (self w)) ->
  exists w', while_True cfg reads w = (Blocked, w').
Proof.
  unfold only_frames.
  induction reads as [|[frame vad now | e now] rest IH]; intros w Hr Hb Hp.
  - eexists. reflexivity.
  - apply Forall_cons in Hr as [Hf Hr].
    cbn [while_True]. cbv [mbind M_bind bind set_clock].
    match goal with |- context [process_frame _ _ _ ?w0] =>
      destruct (process_frame_pcm16 cfg frame vad w0 Hf Hb Hp)
        as (w1 & -> & Hb1 & Hp1)
    end.
    apply IH; assumption.
  - apply Forall_cons in Hr as [[] _].
Qed.

Lemma loop_survives_failures_witness :
  exists w',
    while_True config
      (speech_reads 1 7
       ++ [Read_frame (sample_frame 8) Vad_raises "20240101_120001"%string]
       ++ silence_reads 9 99)
      fresh_sys
    = (Blocked, w').
Proof.
  apply (loop_survives_failures config
           (speech_reads 1 7
            ++ [Read_frame (sample_frame 8) Vad_raises
                  "20240101_120001"%string]
            ++ silence_reads 9 99)
           fresh_sys);
    vm_compute; repeat constructor.
Defined.

(** ** A failing classifier *)

Lemma while_True_vad_failures cfg reads : forall w,
  while_True cfg (vad_failures_as_silence reads) w = while_True cfg reads w.
Proof.
  unfold vad_failures_as_silence.
  induction reads as [|[frame vad now | e now] rest IH]; intros w;
    [reflexivity | | reflexivity].
  assert (Hv : forall w0,
             process_frame cfg frame
               match vad with Vad_raises => Vad_returns false | v => v end w0
             = process_frame cfg frame vad w0)
    by (destruct vad; reflexivity).
  destruct vad; cbn [map while_True]; cbv [mbind M_bind bind set_clock];
    rewrite ?Hv;
    (destruct (process_frame cfg frame _ _) as [[[]| |] w1];
       [apply IH | reflexivity | reflexivity]).
Qed.

(** X15.  A frame on which the classifier raises is treated as a non-speech
    frame, wherever it occurs: a run of [record] is the run in which the
    classifier answered "no speech" on these frames. *)
Theorem vad_failure_counts_as_silence (cfg : Config) (devices : list string)
    (reads : list ReadResult) (w : Sys) :
  record cfg devices (vad_failures_as_silence reads) w
  = record cfg devices reads w.
Proof.
  unfold record.
  destruct (_get_blue_snowball_device_index devices 0); [|reflexivity].
  cbv [mbind M_bind bind emit upd try_finally try_except_KeyboardInterrupt].
  rewrite while_True_vad_failures. reflexivity.
Qed.

(** ** From the microphone to the file *)

(** The loop before the closing frame of a first utterance. *)
Lemma while_True_utterance cfg xs sil x : forall w,
  recording (self w) = false -> speech_frame_counter (self w) = 0 ->
  len xs + 1 = MINIMUM_CONSECUTIVE_SPEECH_FRAMES cfg ->
  len sil + 1 = silence_threshold (self w) ->
  exists w3,
    while_True cfg (speech_of (xs ++ [x]) ++ silence_of sil) w = (Blocked, w3)
    /\ recording (self w3) = true
    /\ speech_detected_in_recording (self w3) = true
    /\ silence_counter (self w3) = len sil
    /\ buffer (self w3)
       = speech_pre_buffer (self w) ++ map fst xs ++ [fst x; fst x]
         ++ map fst sil
    /\ save_calls (trace w3) = save_calls (trace w).
Proof.
  intros w Hr H0 Hmin Hthr.
  unfold speech_of. rewrite map_app, <- app_assoc.
  fold (speech_of xs). cbn [map app].
  destruct (while_True_arming_run cfg
              (Read_frame (fst x) (Vad_returns true) (snd x) :: silence_of sil)
              xs w Hr) as (w1 & -> & H1 & H2 & H3 & H4 & H5); [lia|].
  cbn [while_True]. cbv [mbind M_bind bind set_clock].
  rewrite process_frame_speech_onset by (cbn; auto; lia).
  cbn [self fs clock trace].
  match goal with |- context [while_True _ _ ?w2] =>
    destruct (while_True_silence_run cfg [] sil w2)
      as (w3 & Heq & G1 & G2 & G3 & G4 & G5 & G6 & G7);
      [reflexivity | cbn; lia |]
  end.
  rewrite app_nil_r in Heq. rewrite Heq.
  cbn in G2, G3, G4, G5, G6, G7.
  rewrite save_calls_app in G7. cbn in G7. rewrite app_nil_r in G7.
  exists w3. split; [reflexivity|]. split; [exact G1|]. split; [exact G5|].
  split; [exact G2|]. split; [|congruence].
  rewrite G3, H3, <- !app_assoc. reflexivity.
Qed.

(** X16.  From the microphone to the file.  With the network directory in
    place and nothing in the way at the primary path, a first utterance of
    exactly [MINIMUM_CONSECUTIVE_SPEECH_FRAMES] speech frames followed by
    [silence_threshold] silence frames changes the disk in one place: the
    file at the primary path, named after the time of the closing frame,
    holds the pre-buffer, the speech frames, the last speech frame once
    more and the first [trailing_silence_frames] silence frames. *)
Theorem utterance_is_stored_at_primary_path (cfg : Config)
    (xs sil : list (Frame * string)) (x s : Frame * string) (w : Sys) :
  let name := output_filename cfg (snd s) in
  let primary := PyStr.path_join (network_path (self w)) name in
  let kept :=
    firstn (Z.to_nat (trailing_silence_frames (self w)))
      (map fst sil ++ [fst s]) in
  let frames :=
    speech_pre_buffer (self w) ++ map fst xs ++ [fst x; fst x] ++ kept in
  recording (self w) = false -> speech_frame_counter (self w) = 0 ->
  len xs + 1 = MINIMUM_CONSECUTIVE_SPEECH_FRAMES cfg ->
  len sil + 1 = silence_threshold (self w) ->
  0 <= trailing_silence_frames (self w) ->
  Forall pcm16_frame
    (speech_pre_buffer (self w) ++ map fst xs ++ [fst x; fst x]
     ++ map fst sil ++ [fst s]) ->
  no_slash name ->
  network_path (self w) <> ""%string ->
  PyStr.dir_key (network_path (self w)) ∈ dirs (fs w) ->
  PyStr.dir_key (network_path (self w)) ∉ denied (fs w) ->
  PyStr.dir_key primary ∉ dirs (fs w) ->
  (open_mode_of cfg = Mode_x -> files (fs w) !! primary = None) ->
  exists w',
    while_True cfg (speech_of (xs ++ [x]) ++ silence_of (sil ++ [s])) w
    = (Blocked, w')
    /\ fs w'
       = store_file primary (audio_file_of cfg (self w) (bytes_join frames))
           (fs w).
Proof.
  intros name primary kept frames Hr H0 Hmin Hthr Htsf Hpcm Hname Hne Hdir
    Hden Hfree Hnew.
  unfold silence_of. rewrite map_app, app_assoc. fold (silence_of sil).
  cbn [map].
  rewrite while_True_append.
  destruct (while_True_utterance cfg xs sil x w Hr H0 Hmin Hthr)
    as (w3 & Hrun & G1 & G2 & G3 & G4 & G5).
  rewrite Hrun.
  apply while_True_effect in Hrun as (Hset & calls & Hc & Hf).
  assert (Hfs : fs w3 = fs w).
  { apply Hf. rewrite G5 in Hc.
    rewrite <- (app_nil_r (save_calls (trace w))) in Hc at 1.
    apply app_inv_head in Hc. auto. }
  destruct Hset as (S1 & _ & _ & S4 & S5 & S6 & _).
  cbn [while_True]. cbv [mbind M_bind bind set_clock blocked].
  rewrite process_frame_silence_close by (cbn; auto; lia).
  cbn [self fs clock trace]. rewrite G2, Hfs.
  match goal with |- context [save_recording cfg ?w4] =>
    pose proof (save_recording_primary_path cfg w4) as Hsave
  end.
  cbn [self fs clock trace] in Hsave.
  assert (Hbuf : buffer (at_close (fst s) (self w3))
                 = (speech_pre_buffer (self w) ++ map fst xs
                    ++ [fst x; fst x])
                   ++ (map fst sil ++ [fst s])).
  { cbn. rewrite G4, <- !app_assoc. reflexivity. }
  assert (Hnp : network_path (at_close (fst s) (self w3))
                = network_path (self w)) by exact S6.
  rewrite Hnp in Hsave. fold name primary in Hsave.
  rewrite Hsave; clear Hsave; try assumption.
  - eexists. split; [reflexivity|]. cbn [fs]. f_equal.
    unfold audio_file_of. cbn [sample_rate at_close set_buffer
      set_silence_counter set_speech_frame_counter]. rewrite S1. f_equal.
    f_equal. unfold trim_trailing_silence.
    cbn [silence_counter trailing_silence_frames at_close set_buffer
         set_silence_counter set_speech_frame_counter].
    rewrite S5, G3.
    change (buffer (set_buffer ?b _)) with b.
    assert (Hlen : len (map fst sil ++ [fst s])
                   = silence_threshold (self w)).
    { unfold len in *. rewrite length_app, length_map. cbn. lia. }
    destruct (Z.gtb_spec (len sil + 1) (trailing_silence_frames (self w))).
    + cbn [buffer set_buffer]. fold (at_close (fst s) (self w3)).
      rewrite Hbuf.
      rewrite slice_to_minus_app by lia.
      unfold frames, kept. rewrite <- !app_assoc. cbn [app].
      rewrite Hlen, <- Hthr.
      replace (len sil + 1 - (len sil + 1 - trailing_silence_frames (self w)))
        with (trailing_silence_frames (self w)) by lia.
      reflexivity.
    + fold (at_close (fst s) (self w3)). rewrite Hbuf.
      unfold frames, kept. rewrite firstn_all2.
      * rewrite <- !app_assoc. reflexivity.
      * unfold len in Hlen. lia.
  - rewrite Hbuf, !len_app. unfold len. cbn. lia.
  - rewrite Hbuf. rewrite <- !app_assoc. exact Hpcm.
Qed.

Lemma utterance_is_stored_at_primary_path_witness :
  exists w',
    while_True config
      (speech_of (map (fun n => (sample_frame n, "20240101_120000"%string))
                    (seq 1 6)
                  ++ [(sample_frame 7, "20240101_120000"%string)])
       ++ silence_of (map (fun n => (sample_frame n, "20240101_120002"%string))
                        (seq 8 99)
                      ++ [(sample_frame 107, "20240101_120003"%string)]))
      (mkSys fresh_recorder mounted_disk "" [])
    = (Blocked, w')
    /\ files (fs w')
       !! "/mnt/smbhome/audio_in/recording_20240101_120003.flac"%string
       = Some (mkAudioFile FLAC 1 2 16000
                 (bytes_join
                    (map sample_frame (seq 1 7 ++ 7%nat :: seq 8 3)))).
Proof.
  destruct (utterance_is_stored_at_primary_path config
              (map (fun n => (sample_frame n, "20240101_120000"%string))
                 (seq 1 6))
              (map (fun n => (sample_frame n, "20240101_120002"%string))
                 (seq 8 99))
              (sample_frame 7, "20240101_120000"%string)
              (sample_frame 107, "20240101_120003"%string)
              (mkSys fresh_recorder mounted_disk "" []))
    as (w' & Hrun & Hfs);
    [ first [ vm_compute; reflexivity
            | vm_compute; intros H; discriminate H
            | vm_compute; intros _; reflexivity
            | vm_compute; repeat constructor ] .. | ].
  exists w'. split; [exact Hrun|]. rewrite Hfs. vm_compute. reflexivity.
Defined.

Lemma record_keeps_settings_witness :
  same_settings (self fresh_sys)
    (self (state_after (speech_reads 1 7 ++ silence_reads 8 100))).
Proof.
  apply (record_keeps_settings config two_devices
           (speech_reads 1 7 ++ silence_reads 8 100) fresh_sys
           (state_after (speech_reads 1 7 ++ silence_reads 8 100)) Blocked).
  vm_compute. reflexivity.
Defined.

Lemma disk_changes_only_in_save_recording_witness :
  fs (state_after (speech_reads 1 7 ++ silence_reads 8 50)) = fs fresh_sys.
Proof.
  apply (disk_changes_only_in_save_recording config two_devices
           (speech_reads 1 7 ++ silence_reads 8 50) fresh_sys
           (state_after (speech_reads 1 7 ++ silence_reads 8 50)) Blocked);
    vm_compute; reflexivity.
Defined.

(** ** What a closed session leaves behind *)

(** X17.  What the pre-buffer holds when a segment has been closed.  After
    an onset from a recorder that was not recording, frames that do not
    close the segment and the silence frame that does, the recorder is not
    recording, its buffer is empty, and the pre-buffer holds the speech
    frames of the session read after the onset frame, in order. *)
Theorem closed_session_leaves_its_speech (cfg : Config)
    (xs : list (Frame * string)) (x : Frame * string)
    (body : list ReadResult) (frame : Frame) (vad : VadResult) (now : string)
    (w : Sys) :
  recording (self w) = false -> speech_frame_counter (self w) = 0 ->
  len xs + 1 = MINIMUM_CONSECUTIVE_SPEECH_FRAMES cfg ->
  only_frames body ->
  silence_runs 0 0 (verdicts body) < silence_threshold (self w) ->
  verdict vad = false ->
  silence_threshold (self w) <= silence_tail 0 (verdicts body) + 1 ->
  Forall pcm16_frame
    (speech_pre_buffer (self w) ++ map fst xs ++ [fst x; frame]) ->
  exists w',
    while_True cfg
      (speech_of (xs ++ [x]) ++ body ++ [Read_frame frame vad now]) w
    = (Blocked, w')
    /\ recording (self w') = false
    /\ speech_frame_counter (self w') = 0
    /\ buffer (self w') = []
    /\ speech_pre_buffer (self w') = speech_frames body.
Proof. apply while_True_closed_session. Qed.

Lemma closed_session_leaves_its_speech_witness :
  exists w',
    while_True config
      (speech_of (map (fun n => (sample_frame n, "20240101_120000"%string))
                    (seq 1 6)
                  ++ [(sample_frame 7, "20240101_120000"%string)])
       ++ (Read_frame (sample_frame 8) (Vad_returns true)
             "20240101_120000"%string
           :: silence_reads 9 99)
       ++ [Read_frame (sample_frame 108) (Vad_returns false)
             "20240101_120003"%string])
      fresh_sys
    = (Blocked, w')
    /\ recording (self w') = false
    /\ speech_frame_counter (self w') = 0
    /\ buffer (self w') = []
    /\ speech_pre_buffer (self w') = [sample_frame 8].
Proof.
  apply (closed_session_leaves_its_speech config
           (map (fun n => (sample_frame n, "20240101_120000"%string)) (seq 1 6))
           (sample_frame 7, "20240101_120000"%string)
           (Read_frame (sample_frame 8) (Vad_returns true)
              "20240101_120000"%string
            :: silence_reads 9 99)
           (sample_frame 108) (Vad_returns false) "20240101_120003"%string
           fresh_sys);
    first [ vm_compute; reflexivity
          | vm_compute; intros H; discriminate H
          | vm_compute; repeat constructor ].
Defined.
